(** * ResearchAssistant/app.py: a shallow embedding and its properties

    The program is a Flask endpoint in front of a tool-using agent.  Its own
    code is five tool functions (Wikipedia, DuckDuckGo, BasicMath, ArXiv,
    PubMed), the tool registry, the prompt template and the [/search]
    handler.  Everything the tools reach for (the wikipedia package, DDGS,
    requests, the XML and JSON parsers, the builtin [eval], the language
    model) lives outside the program, and is represented here by a [world]
    of oracles that may answer or raise.

    Python code is embedded in a monad [py] that reads the history of the
    events that already happened, returns a value or a raised exception,
    and writes the events it performed. *)

From Stdlib Require Import String Ascii List ZArith Lia Bool Arith DecimalString.
Import ListNotations.
Open Scope string_scope.
Set Warnings "-register-all".

(** ** Python strings *)

Module PyStr.

(** The quotation marks U+0022 and U+0027. *)
Definition dquote : ascii := ascii_of_nat 34.
Definition squote : ascii := "'"%char.
Definition nl : string := String (ascii_of_nat 10) EmptyString.

Fixpoint mem (c : ascii) (set : string) : bool :=
  match set with
  | EmptyString => false
  | String d set' => Ascii.eqb c d || mem c set'
  end.

(** [all(p(c) for c in s)] *)
Fixpoint all (p : ascii -> bool) (s : string) : bool :=
  match s with
  | EmptyString => true
  | String c s' => p c && all p s'
  end.

(** [s.lstrip(chars)] *)
Fixpoint lstrip (chars : string) (s : string) : string :=
  match s with
  | EmptyString => EmptyString
  | String c s' => if mem c chars then lstrip chars s' else s
  end.

(** [s.rstrip(chars)]: a character goes when all that follows it went. *)
Fixpoint rstrip (chars : string) (s : string) : string :=
  match s with
  | EmptyString => EmptyString
  | String c s' =>
      match rstrip chars s' with
      | EmptyString => if mem c chars then EmptyString else String c EmptyString
      | r => String c r
      end
  end.

(** [s.strip(chars)] *)
Definition strip (chars : string) (s : string) : string :=
  rstrip chars (lstrip chars s).

(** [s.replace(old, new)] for a one-character [old] and [new]. *)
Fixpoint replace (old new : ascii) (s : string) : string :=
  match s with
  | EmptyString => EmptyString
  | String c s' =>
      String (if Ascii.eqb c old then new else c) (replace old new s')
  end.

(** [s[0:n]], also written [s[:n]]: the first [n] characters, fewer when
    [s] is shorter. *)
Definition slice_to (n : nat) (s : string) : string := substring 0 n s.

(** [sep.join(parts)] *)
Fixpoint join (sep : string) (parts : list string) : string :=
  match parts with
  | [] => EmptyString
  | [p] => p
  | p :: rest => p ++ sep ++ join sep rest
  end.

(** [s.startswith(p)] *)
Definition startswith (p s : string) : bool := String.prefix p s.

(** [s.split(sep)] for a one-character separator. *)
Fixpoint split (sep : ascii) (s : string) : list string :=
  match s with
  | EmptyString => [EmptyString]
  | String c s' =>
      if Ascii.eqb c sep then EmptyString :: split sep s'
      else match split sep s' with
           | [] => [String c EmptyString]
           | w :: ws => String c w :: ws
           end
  end.

(** [s.splitlines()] on text whose only line break is U+000A and that does
    not end in one. *)
Definition lines (s : string) : list string := split (ascii_of_nat 10) s.

(** The characters of [s], one string each: what iterating a [str] yields. *)
Fixpoint chars (s : string) : list string :=
  match s with
  | EmptyString => []
  | String c s' => String c EmptyString :: chars s'
  end.

(** [str(n)] for an [int]. *)
Definition of_Z (n : Z) : string := NilZero.string_of_int (Z.to_int n).

(** [repr(s)] for a [str]: in single quotes, or in double quotes when [s]
    holds a single quote and no double one; the quote in use and the
    backslash are escaped, and so are the characters that do not print. *)
Definition backslash : ascii := ascii_of_nat 92.

Definition hex_digit (n : nat) : ascii :=
  ascii_of_nat (if n <? 10 then 48 + n else 87 + n)%nat.

Definition escape (quote c : ascii) : string :=
  let n := nat_of_ascii c in
  if Ascii.eqb c quote || Ascii.eqb c backslash
  then String backslash (String c EmptyString)
  else if (n =? 9)%nat then String backslash "t"
  else if (n =? 10)%nat then String backslash "n"
  else if (n =? 13)%nat then String backslash "r"
  else if (n <? 32)%nat || ((127 <=? n)%nat && (n <=? 160)%nat) || (n =? 173)%nat
  then String backslash
         (String "x" (String (hex_digit (n / 16)) (String (hex_digit (n mod 16)) EmptyString)))
  else String c EmptyString.

Fixpoint escaped (quote : ascii) (s : string) : string :=
  match s with
  | EmptyString => EmptyString
  | String c s' => escape quote c ++ escaped quote s'
  end.

Definition repr (s : string) : string :=
  let quote := if mem squote s && negb (mem dquote s) then dquote else squote in
  String quote (escaped quote s ++ String quote EmptyString).

(** The number of decimal digits of [n], sign apart. *)
Definition digits (n : Z) : nat := String.length (of_Z (Z.abs n)).

End PyStr.

(** ** Exceptions

    The classes the program tells apart, and every other subclass of
    [Exception].  [KeyboardInterrupt], [SystemExit] and [GeneratorExit] are
    no failures of a callee and are not modelled. *)

Inductive exn : Type :=
| DisambiguationError (message : string) (options : list string)
| PageError (message : string)
| Exception (class : string) (message : string).

(** [str(e)] *)
Definition str_exn (e : exn) : string :=
  match e with
  | DisambiguationError m _ => m
  | PageError m => m
  | Exception _ m => m
  end.

(** The exceptions the interpreter itself raises in this program. *)
Definition IndexError_list : exn :=
  Exception "IndexError" "list index out of range".
Definition KeyError (key : string) : exn :=
  Exception "KeyError" (PyStr.repr key).
Definition AttributeError (type attr : string) : exn :=
  Exception "AttributeError"
    ("'" ++ type ++ "' object has no attribute '" ++ attr ++ "'").
Definition TypeError (message : string) : exn := Exception "TypeError" message.
Definition ValueError (message : string) : exn := Exception "ValueError" message.

(** ** Values of dynamic type

    JSON documents, the result of [eval], and whatever a dictionary of a
    search result holds.  [PyObject] is any object of another type (a
    [float], a [tuple], [Ellipsis], ...), known by what [str()] and [bool()]
    make of it. *)

Inductive pyval : Type :=
| PyNone
| PyBool (b : bool)
| PyInt (n : Z)
| PyStr (s : string)
| PyList (items : list pyval)
| PyDict (items : list (string * pyval))
| PyObject (type : string) (str : string) (truth : bool).

Definition dict : Type := list (string * pyval).

(** [type(v).__name__] *)
Definition type_name (v : pyval) : string :=
  match v with
  | PyNone => "NoneType"
  | PyBool _ => "bool"
  | PyInt _ => "int"
  | PyStr _ => "str"
  | PyList _ => "list"
  | PyDict _ => "dict"
  | PyObject t _ _ => t
  end.

(** [bool(v)], the test of [if v] and [if not v]. *)
Definition truthy (v : pyval) : bool :=
  match v with
  | PyNone => false
  | PyBool b => b
  | PyInt n => negb (n =? 0)%Z
  | PyStr s => negb (String.eqb s EmptyString)
  | PyList l => match l with [] => false | _ => true end
  | PyDict d => match d with [] => false | _ => true end
  | PyObject _ _ t => t
  end.

(** [key in d] and the lookup behind [d[key]] and [d.get(key)]. *)
Fixpoint lookup (key : string) (d : dict) : option pyval :=
  match d with
  | [] => None
  | (k, v) :: d' => if String.eqb key k then Some v else lookup key d'
  end.

(** ** The objects of the libraries *)

(** A [wikipedia.WikipediaPage]. *)
Record page : Type := { page_title : string; pageid : Z }.

(** A [requests.Response]. *)
Record response : Type :=
  { status_code : Z; reason : string; url : string; text : string }.

(** An [xml.etree.ElementTree.Element]. *)
Inductive element : Type :=
| Element (tag : string) (etext : option string) (children : list element).

Definition tag_of (e : element) : string := let 'Element t _ _ := e in t.
Definition text_of (e : element) : option string := let 'Element _ x _ := e in x.
Definition children_of (e : element) : list element :=
  let 'Element _ _ c := e in c.

(** [e.findall(tag)]: the direct children with that tag, in document order. *)
Definition findall (tag : string) (e : element) : list element :=
  filter (fun c => String.eqb (tag_of c) tag) (children_of e).

(** [e.find(tag)]: the first of them, or [None]. *)
Definition find (tag : string) (e : element) : option element :=
  List.find (fun c => String.eqb (tag_of c) tag) (children_of e).

(** ** Effects

    What the program does to the outside, and the exceptions that were
    raised on the way, in the order in which they happened. *)

Inductive call : Type :=
| WikipediaSearch (query : string)
| WikipediaPage (title : string)
| PageSummary (p : page)
| DdgsText (query : string)
| BuiltinEval (source : string)
| RequestsGet (url : string)
| LlmComplete (prompt : string)
| AgentRun (input : pyval).

Inductive event : Type :=
| Called (c : call)
| Raised (e : exn).

Definition history : Type := list event.

Inductive outcome (A : Type) : Type :=
| Ret (a : A)
| Raise (e : exn).
Arguments Ret {A} a.
Arguments Raise {A} e.

(** A Python computation: given the events so far, its outcome and the
    events it adds. *)
Definition py (A : Type) : Type := history -> outcome A * list event.

Definition result {A} (r : outcome A * list event) : outcome A := fst r.
Definition events {A} (r : outcome A * list event) : list event := snd r.

Definition ret {A} (a : A) : py A := fun _ => (Ret a, []).

Definition bind {A B} (m : py A) (k : A -> py B) : py B :=
  fun h =>
    match m h with
    | (Ret a, ev) => let (r, ev') := k a (h ++ ev)%list in (r, (ev ++ ev')%list)
    | (Raise e, ev) => (Raise e, ev)
    end.

(** [raise e] *)
Definition throw {A} (e : exn) : py A := fun _ => (Raise e, [Raised e]).

(** [try: m  except Exception as e: handler(e)]; a handler starts after the
    events of the body. *)
Definition try_except {A} (m : py A) (handler : exn -> py A) : py A :=
  fun h =>
    match m h with
    | (Ret a, ev) => (Ret a, ev)
    | (Raise e, ev) => let (r, ev') := handler e (h ++ ev)%list in (r, (ev ++ ev')%list)
    end.

(** The answer of a library function that touches nothing outside. *)
Definition lift {A} (o : outcome A) : py A :=
  match o with
  | Ret a => ret a
  | Raise e => throw e
  end.

(** A call that leaves the program: it is recorded, and the outside answers
    knowing what happened before. *)
Definition extern {A} (c : call) (answer : history -> outcome A) : py A :=
  fun h =>
    match answer h with
    | Ret a => (Ret a, [Called c])
    | Raise e => (Raise e, [Called c; Raised e])
    end.

(** A recorded call into code that runs in the same interpreter. *)
Definition traced {A} (c : call) (m : py A) : py A :=
  fun h => let (r, ev) := m (h ++ [Called c])%list in (r, Called c :: ev).

Declare Scope py_scope.
Delimit Scope py_scope with py.
Notation "x <- m ;; k" := (bind m (fun x => k))
  (at level 61, m at next level, right associativity) : py_scope.
Notation "m ;;; k" := (bind m (fun _ => k))
  (at level 61, right associativity) : py_scope.
Open Scope py_scope.

(** [l.append(x)] *)
Definition append {A} (l : list A) (x : A) : list A := (l ++ [x])%list.

(** [for x in xs: acc = body(acc, x)], where the body may raise. *)
Fixpoint for_each {A B} (body : B -> A -> py B) (xs : list A) (acc : B) : py B :=
  match xs with
  | [] => ret acc
  | x :: xs' => acc' <- body acc x ;; for_each body xs' acc'
  end.

(** ** The world outside the program *)

Record world : Type :=
  { (** [wikipedia.search(query, results=1)] *)
    wikipedia_search : string -> history -> outcome (list string);
    (** [wikipedia.page(title, auto_suggest=False)] *)
    wikipedia_page : string -> history -> outcome page;
    (** [page.summary], a property that fetches on first use *)
    page_summary : page -> history -> outcome string;
    (** [with DDGS() as ddgs: list(ddgs.text(query, max_results=3))] *)
    ddgs_text : string -> history -> outcome (list dict);
    (** [eval(source)] on sources outside the fragment of [arith_eval] *)
    eval_other : string -> history -> outcome pyval;
    (** [requests.get(url, timeout=10)] *)
    requests_get : string -> history -> outcome response;
    (** [response.json()], a function of the response alone *)
    response_json : response -> outcome pyval;
    (** [ET.fromstring(text)], a function of the text alone *)
    ET_fromstring : string -> outcome element;
    (** the completion capability of [Ollama(model=...)] *)
    llama : string -> history -> outcome string;
    (** [sys.get_int_max_str_digits()]; 0 switches the limit off *)
    int_max_str_digits : nat;
    (** [str()] of a [list] or a [dict] *)
    str_container : pyval -> string }.

(** ** The builtin [eval] on integer arithmetic

    [eval] is the interpreter's, not the program's.  On short sources that
    are integer literals combined with [+], [-], [*] and parentheses its
    answer is fixed by the language, and [arith_eval] computes it; every
    other source is left to the world ([eval_other]). *)

Module Arith.

Inductive token : Type :=
| TNum (n : Z)
| TPlus
| TMinus
| TStar
| TLpar
| TRpar.

Definition is_digit (c : ascii) : bool := PyStr.mem c "0123456789".

Definition digit_value (c : ascii) : Z := Z.of_nat (nat_of_ascii c) - 48.

(** A decimal literal: no leading zero, unless it is made of zeros only. *)
Definition literal (ds : list ascii) : option Z :=
  match ds with
  | [] => None
  | d :: _ =>
      if Ascii.eqb d "0"%char && negb (forallb (Ascii.eqb "0"%char) ds)
      then None
      else Some (fold_left (fun acc c => 10 * acc + digit_value c) ds 0)%Z
  end.

(** The digits read so far are in [num], most recent first. *)
Definition flush (num : list ascii) (rest : option (list token))
  : option (list token) :=
  match num, rest with
  | _, None => None
  | [], Some ts => Some ts
  | _, Some ts =>
      match literal (rev num) with
      | Some n => Some (TNum n :: ts)
      | None => None
      end
  end.

Fixpoint lex (num : list ascii) (s : string) : option (list token) :=
  match s with
  | EmptyString => flush num (Some [])
  | String c s' =>
      if is_digit c then lex (c :: num) s'
      else if Ascii.eqb c " "%char then flush num (lex [] s')
      else if Ascii.eqb c "+"%char then flush num (option_map (cons TPlus) (lex [] s'))
      else if Ascii.eqb c "-"%char then flush num (option_map (cons TMinus) (lex [] s'))
      else if Ascii.eqb c "("%char then flush num (option_map (cons TLpar) (lex [] s'))
      else if Ascii.eqb c ")"%char then flush num (option_map (cons TRpar) (lex [] s'))
      else if Ascii.eqb c "*"%char then
        match s' with
        | String "*"%char _ => None   (* the power operator *)
        | _ => flush num (option_map (cons TStar) (lex [] s'))
        end
      else None
  end.

(** The grammar of the language reference, cut down to this fragment:
    [expr ::= term (("+" | "-") term)*],
    [term ::= factor ("*" factor)*],
    [factor ::= ("+" | "-") factor | NUMBER | "(" expr ")"]. *)
Inductive nonterminal : Type :=
| Expr
| ExprRest (acc : Z)
| Term
| TermRest (acc : Z)
| Factor.

Fixpoint parse (fuel : nat) (nt : nonterminal) (ts : list token)
  : option (Z * list token) :=
  match fuel with
  | O => None
  | S fuel' =>
      match nt with
      | Expr =>
          match parse fuel' Term ts with
          | Some (v, r) => parse fuel' (ExprRest v) r
          | None => None
          end
      | ExprRest acc =>
          match ts with
          | TPlus :: r =>
              match parse fuel' Term r with
              | Some (v, r') => parse fuel' (ExprRest (acc + v)) r'
              | None => None
              end
          | TMinus :: r =>
              match parse fuel' Term r with
              | Some (v, r') => parse fuel' (ExprRest (acc - v)) r'
              | None => None
              end
          | _ => Some (acc, ts)
          end
      | Term =>
          match parse fuel' Factor ts with
          | Some (v, r) => parse fuel' (TermRest v) r
          | None => None
          end
      | TermRest acc =>
          match ts with
          | TStar :: r =>
              match parse fuel' Factor r with
              | Some (v, r') => parse fuel' (TermRest (acc * v)) r'
              | None => None
              end
          | _ => Some (acc, ts)
          end
      | Factor =>
          match ts with
          | TPlus :: r => parse fuel' Factor r
          | TMinus :: r =>
              match parse fuel' Factor r with
              | Some (v, r') => Some (- v, r')
              | None => None
              end
          | TNum n :: r => Some (n, r)
          | TLpar :: r =>
              match parse fuel' Expr r with
              | Some (v, TRpar :: r') => Some (v, r')
              | _ => None
              end
          | _ => None
          end
      end%Z
  end.

(** Sources of at most this many characters stay clear of the
    interpreter's limits (nesting depth, digits of an [int]). *)
Definition max_source : nat := 100.

Definition arith_eval (source : string) : option Z :=
  if (String.length source <=? max_source)%nat then
    match lex [] source with
    | Some ts =>
        match parse (4 * max_source + 4) Expr ts with
        | Some (v, []) => Some v
        | _ => None
        end
    | None => None
    end
  else None.

End Arith.
(** ** The program *)

Section Program.

Variable W : world.

(** *** Operations of the interpreter on values of dynamic type *)

(** [str(n)] for an [int]: since 3.11 a [ValueError] above the digit limit,
    which is 0 (off) or at least 640. *)
Definition int_str_allowed (n : Z) : bool :=
  (int_max_str_digits W =? 0)%nat
  || (PyStr.digits n <=? Nat.max (int_max_str_digits W) 640)%nat.

(** [str(v)], and [v] formatted in an f-string. *)
Definition py_str (v : pyval) : py string :=
  match v with
  | PyNone => ret "None"
  | PyBool true => ret "True"
  | PyBool false => ret "False"
  | PyInt n =>
      if int_str_allowed n then ret (PyStr.of_Z n)
      else throw (ValueError
             ("Exceeds the limit ("
              ++ PyStr.of_Z (Z.of_nat (Nat.max (int_max_str_digits W) 640))
              ++ " digits) for integer string conversion; "
              ++ "use sys.set_int_max_str_digits() to increase the limit"))
  | PyStr s => ret s
  | PyList _ | PyDict _ => ret (str_container W v)
  | PyObject _ s _ => ret s
  end.

Definition not_subscriptable (v : pyval) : exn :=
  TypeError ("'" ++ type_name v ++ "' object is not subscriptable").

(** [v[:n]]; a [dict] takes the slice for a key, and up to 3.11 a slice
    cannot be hashed. *)
Definition py_slice_to (n : nat) (v : pyval) : py pyval :=
  match v with
  | PyStr s => ret (PyStr (PyStr.slice_to n s))
  | PyList l => ret (PyList (firstn n l))
  | PyDict _ => throw (TypeError "unhashable type: 'slice'")
  | _ => throw (not_subscriptable v)
  end.

(** [v + s] for a [str] s *)
Definition py_add_str (v : pyval) (s : string) : py pyval :=
  match v with
  | PyStr a => ret (PyStr (a ++ s))
  | PyList _ =>
      throw (TypeError ("can only concatenate list (not "
                        ++ String PyStr.dquote ("str" ++ String PyStr.dquote
                        ") to list")))
  | _ => throw (TypeError ("unsupported operand type(s) for +: '"
                           ++ type_name v ++ "' and 'str'"))
  end.

(** [v.get(key, default)] *)
Definition py_get (v : pyval) (key : string) (default : pyval) : py pyval :=
  match v with
  | PyDict d =>
      ret (match lookup key d with Some x => x | None => default end)
  | _ => throw (AttributeError (type_name v) "get")
  end.

(** [v[key]] for a [str] key *)
Definition py_getitem (v : pyval) (key : string) : py pyval :=
  match v with
  | PyDict d =>
      match lookup key d with
      | Some x => ret x
      | None => throw (KeyError key)
      end
  | PyList _ =>
      throw (TypeError "list indices must be integers or slices, not str")
  | PyStr _ => throw (TypeError "string indices must be integers, not 'str'")
  | _ => throw (not_subscriptable v)
  end.

(** What iterating [v] yields, for [sep.join(v)]. *)
Definition py_iter (v : pyval) : py (list pyval) :=
  match v with
  | PyList l => ret l
  | PyStr s => ret (map PyStr (PyStr.chars s))
  | PyDict d => ret (map (fun kv => PyStr (fst kv)) d)
  | _ => throw (TypeError "can only join an iterable")
  end.

(** The items [sep.join(v)] accepts: an iterable of [str]. *)
Definition str_items (v : pyval) : py (list string) :=
  items <- py_iter v ;;
  for_each
    (fun acc item =>
       match item with
       | PyStr s => ret (append acc s)
       | _ => throw (TypeError ("sequence item "
                       ++ PyStr.of_Z (Z.of_nat (List.length acc))
                       ++ ": expected str instance, "
                       ++ type_name item ++ " found"))
       end)
    items [].

(** [response.raise_for_status()] *)
Definition raise_for_status (r : response) : py unit :=
  let line kind :=
    PyStr.of_Z (status_code r) ++ kind ++ reason r ++ " for url: " ++ url r in
  if (400 <=? status_code r)%Z && (status_code r <? 500)%Z
  then throw (Exception "HTTPError" (line " Client Error: "))
  else if (500 <=? status_code r)%Z && (status_code r <? 600)%Z
  then throw (Exception "HTTPError" (line " Server Error: "))
  else ret tt.

(** [eval(source)] *)
Definition builtin_eval (source : string) : py pyval :=
  extern (BuiltinEval source)
    (fun h =>
       match Arith.arith_eval source with
       | Some n => Ret (PyInt n)
       | None => eval_other W source h
       end).

(** An [Optional[str]] formatted in an f-string. *)
Definition format_optional (x : option string) : string :=
  match x with Some s => s | None => "None" end.

(** *** safe_wikipedia_search (lines 22-43) *)

(** Line 25: the query without the quote characters (U+0022, U+0027) at
    its ends, and with every plus sign turned into a space.  [strip] and
    [replace] of a [str] do not raise, so every handler below sees the
    cleaned query. *)
Definition clean_query (query : string) : string :=
  PyStr.replace "+"%char " "%char
    (PyStr.strip (String PyStr.dquote (String PyStr.squote EmptyString)) query).

(** [page = wikipedia.page(title, auto_suggest=False)] followed by
    [return page.summary[0:500]] (lines 31-32 and 36-37). *)
Definition summary_of_page (title : string) : py string :=
  page <- extern (WikipediaPage title) (wikipedia_page W title) ;;
  summary <- extern (PageSummary page) (page_summary W page) ;;
  ret (PyStr.slice_to 500 summary).

(** The body of the outer [try], after line 25. *)
Definition wikipedia_lookup (query : string) : py string :=
  search_results <- extern (WikipediaSearch query) (wikipedia_search W query) ;;
  match search_results with
  | [] => ret ("No Wikipedia articles found for '" ++ query ++ "'")
  | page_title :: _ => summary_of_page page_title
  end.

Definition safe_wikipedia_search (query : string) : py string :=
  let query := clean_query query in
  try_except (wikipedia_lookup query)
    (fun e =>
       match e with
       | DisambiguationError _ options =>
           try_except
             (match options with
              | first :: _ => summary_of_page first
              | [] => throw IndexError_list
              end)
             (fun _ =>
                ret ("Multiple Wikipedia articles found for '" ++ query
                     ++ "'. Please be more specific."))
       | PageError _ =>
           ret ("No Wikipedia article found for '" ++ query ++ "'")
       | Exception _ _ =>
           ret ("An error occurred while searching Wikipedia: " ++ str_exn e)
       end).

(** *** safe_duckduckgo_search (lines 45-64) *)

(** One round of the loop of lines 57-60. *)
Definition format_result (formatted_results : list string) (r : dict)
  : py (list string) :=
  let link :=
    match lookup "link" r with
    | Some v => v
    | None => PyStr "No link available"
    end in
  body <- match lookup "body" r with
          | Some b => cut <- py_slice_to 200 b ;; py_add_str cut "..."
          | None => ret (PyStr EmptyString)
          end ;;
  title <- match lookup "title" r with
           | Some t => py_str t
           | None => throw (KeyError "title")
           end ;;
  body <- py_str body ;;
  link <- py_str link ;;
  ret (append formatted_results
         ("- " ++ title ++ PyStr.nl ++ "  " ++ body ++ PyStr.nl
          ++ "  Source: " ++ link)).

Definition safe_duckduckgo_search (query : string) : py string :=
  try_except
    (let query := clean_query query in
     results <- extern (DdgsText query) (ddgs_text W query) ;;
     match results with
     | [] => ret "No results found on DuckDuckGo."
     | _ =>
         formatted_results <- for_each format_result results [] ;;
         ret (PyStr.join (PyStr.nl ++ PyStr.nl) formatted_results)
     end)
    (fun e =>
       ret ("An error occurred while searching DuckDuckGo: " ++ str_exn e)).

(** *** safe_math_eval (lines 66-75) *)

Definition allowed_chars : string := "0123456789+-*/(). ".

Definition all_allowed (expression : string) : bool :=
  PyStr.all (fun c => PyStr.mem c allowed_chars) expression.

Definition invalid_expression : string :=
  "Invalid mathematical expression. Only basic operations are allowed.".

Definition safe_math_eval (expression : string) : py string :=
  try_except
    (if negb (all_allowed expression) then ret invalid_expression
     else
       result <- builtin_eval expression ;;
       py_str result)
    (fun e =>
       ret ("Error evaluating mathematical expression: " ++ str_exn e)).
(** *** search_arxiv (lines 77-96) *)

Definition atom (name : string) : string :=
  "{http://www.w3.org/2005/Atom}" ++ name.

(** [entry.find(tag).text] *)
Definition find_text (tag : string) (entry : element) : py (option string) :=
  match find tag entry with
  | Some child => ret (text_of child)
  | None => throw (AttributeError "NoneType" "text")
  end.

(** One round of the loop of lines 88-92. *)
Definition format_entry (results : list string) (entry : element)
  : py (list string) :=
  title <- find_text (atom "title") entry ;;
  summary <- find_text (atom "summary") entry ;;
  link <- find_text (atom "id") entry ;;
  cut <- match summary with
         | Some s => ret (PyStr.slice_to 200 s)
         | None => throw (not_subscriptable PyNone)
         end ;;
  ret (append results
         ("Title: " ++ format_optional title ++ PyStr.nl
          ++ "Link: " ++ format_optional link ++ PyStr.nl
          ++ "Summary: " ++ cut ++ "..." ++ PyStr.nl)).

Definition arxiv_url (query : string) : string :=
  "http://export.arxiv.org/api/query?search_query=all:" ++ query
  ++ "&start=0&max_results=3".

(** The body of the [try], lines 82-94. *)
Definition arxiv_fetch (query : string) : py string :=
  let url := arxiv_url query in
  response <- extern (RequestsGet url) (requests_get W url) ;;
  raise_for_status response ;;;
  root <- lift (ET_fromstring W (text response)) ;;
  results <- for_each format_entry (findall (atom "entry") root) [] ;;
  ret (match results with
       | [] => "No results found on arXiv."
       | _ => PyStr.join PyStr.nl results
       end).

Definition search_arxiv (query : string) : py string :=
  if negb (truthy (PyStr query)) then ret "No query provided."
  else
    try_except (arxiv_fetch query)
      (fun e => ret ("Error searching ArXiv: " ++ str_exn e)).

(** *** search_pubmed (lines 98-128) *)

Definition eutils : string := "https://eutils.ncbi.nlm.nih.gov/entrez/eutils/".

Definition esearch_url (query : string) : string :=
  eutils ++ "esearch.fcgi?db=pubmed&term=" ++ query ++ "&retmax=3&format=json".

Definition esummary_url (ids_string : string) : string :=
  eutils ++ "esummary.fcgi?db=pubmed&id=" ++ ids_string ++ "&format=json".

(** One round of the loop of lines 120-124.  [id] is an item of [ids]
    after [",".join(ids)] went through, hence a [str]. *)
Definition format_paper (data : pyval) (results : list string) (id : string)
  : py (list string) :=
  by_id <- py_getitem data "result" ;;
  paper <- py_getitem by_id id ;;
  title <- py_get paper "title" (PyStr "No title available") ;;
  abstract <- py_get paper "abstract" (PyStr "No abstract available") ;;
  title <- py_str title ;;
  cut <- py_slice_to 200 abstract ;;
  cut <- py_str cut ;;
  ret (append results
         ("Title: " ++ title ++ PyStr.nl
          ++ "PubMed ID: " ++ id ++ PyStr.nl
          ++ "Abstract: " ++ cut ++ "..." ++ PyStr.nl)).

(** The body of the [try], lines 103-126. *)
Definition pubmed_fetch (query : string) : py string :=
  let url := esearch_url query in
  response <- extern (RequestsGet url) (requests_get W url) ;;
  raise_for_status response ;;;
  data <- lift (response_json W response) ;;
  esearchresult <- py_get data "esearchresult" (PyDict []) ;;
  ids <- py_get esearchresult "idlist" (PyList []) ;;
  if negb (truthy ids) then ret "No results found on PubMed."
  else
    ids <- str_items ids ;;
    let url := esummary_url (PyStr.join "," ids) in
    response <- extern (RequestsGet url) (requests_get W url) ;;
    raise_for_status response ;;;
    data <- lift (response_json W response) ;;
    results <- for_each (format_paper data) ids [] ;;
    ret (PyStr.join PyStr.nl results).

Definition search_pubmed (query : string) : py string :=
  if negb (truthy (PyStr query)) then ret "No query provided."
  else
    try_except (pubmed_fetch query)
      (fun e => ret ("Error searching PubMed: " ++ str_exn e)).

(** *** The tool registry (lines 131-157) *)

Record Tool : Type :=
  { name : string; func : string -> py string; description : string }.

Definition tools : list Tool :=
  [ {| name := "Wikipedia";
       func := safe_wikipedia_search;
       description := "Get detailed explanations and summaries from Wikipedia. who, what, when, where, why, how, story." |};
    {| name := "DuckDuckGo";
       func := safe_duckduckgo_search;
       description := "Search the web for current information. Input: search query. who, what, when, where, why, how." |};
    {| name := "BasicMath";
       func := safe_math_eval;
       description := "Performs basic mathematical calculations. Input: mathematical expression using +, -, *, /, ()." |};
    {| name := "ArXiv";
       func := search_arxiv;
       description := "Searches arXiv for scientific papers. research paper topic or keywords." |};
    {| name := "PubMed";
       func := search_pubmed;
       description := "Searches PubMed for medical research. research paper on medical topic or keywords." |} ].

(** Line 159. *)
Definition tool_descriptions : string :=
  PyStr.join PyStr.nl (map (fun tool => name tool ++ ": " ++ description tool) tools).

(** *** The prompt template (lines 161-198), line by line *)

Definition CUSTOM_PROMPT : string :=
  PyStr.join PyStr.nl
    [ "You are a helpful research assistant that finds information using the available tools. Follow these guidelines strictly:";
      "";
      "Available tools:";
      "";
      tool_descriptions;
      "";
      "Instructions:";
      ". Details from Internal Knowledge: Related information you already know";
      ". Add line breaks between sections";
      ". Use the exact tool name from the list above";
      ". Keep queries simple and clear";
      ". Use tools according to the type of information needed";
      ". In case of research paper only use ArXiv and Pubmed";
      ". Summarize information from multiple sources when relevant";
      ". Stop as soon as you have a clear answer with reference links";
      "";
      "Use this exact format:";
      "";
      "Question: the input question you must answer";
      "Thought: analyze the question and decide which tool to use";
      "Action: use EXACTLY one of these tools: Wikipedia, DuckDuckGo, BasicMath, ArXiv, or PubMed";
      "Action Input: just the plain search query or math expression";
      "Observation: the result of the action";
      "... (this Thought/Action/Action Input/Observation can repeat up to 3 times if needed)";
      "Thought: I now know the final answer";
      "Final Answer: provide a complete answer based on the information gathered with link (Details from Web Search: ";
      "- First result title and brief description";
      "- Second result title and brief description";
      "";
      "References:";
      "[1] link1";
      "[2] link2";
      "[etc])";
      "";
      "Begin!";
      "";
      "Question: {input}";
      "Thought:" ].

(** *** The /search endpoint (lines 219-229) *)

(** The request as the handler sees it: what reading [request.json]
    gives, a parsed body or the error Flask raises for a body that is
    no JSON. *)
Record request : Type := { request_json : outcome pyval }.

(** [jsonify(body), status] *)
Record http_response : Type := { body : dict; status : nat }.

Definition jsonify (key : string) (value : string) : dict := [(key, PyStr value)].

(** [agent.run], the entry point of the framework's agent executor. *)
Variable agent_run : pyval -> py string.

(** The body of the [try], lines 222-227. *)
Definition search_try (req : request) : py http_response :=
  json <- lift (request_json req) ;;
  user_input <- py_get json "query" PyNone ;;
  if negb (truthy user_input)
  then ret {| body := jsonify "error" "No query provided"; status := 400 |}
  else
    result <- traced (AgentRun user_input) (agent_run user_input) ;;
    ret {| body := jsonify "result" result; status := 200 |}.

Definition search (req : request) : py http_response :=
  try_except (search_try req)
    (fun e => ret {| body := jsonify "error" (str_exn e); status := 500 |}).

End Program.

(** [ToolRegistry[tool_name]]: the registered tool of that name, the match
    being exact and case-sensitive. *)
Definition lookup_tool (W : world) (tool_name : string) : option (Tool) :=
  List.find (fun tool => String.eqb (name tool) tool_name) (tools W).

(** ** The agent loop

    [initialize_agent] (lines 201-213) hands the tools, the model and the
    prompt to the framework's agent executor, whose code is not part of the
    program.  The loop below follows the specification, sections 3, 4.1
    and 4.3. *)

Module AgentLoop.

(** Modelled from the spec: the results of the OutputParser (4.1). *)
Inductive parsed : Type :=
| FinalAnswer (text : string)
| Action (tool_name : string) (tool_input : string)
| ParseError (raw_text : string).

(** Modelled from the spec: a turn of the Transcript (3). *)
Inductive turn : Type :=
| TAction (tool_name : string) (tool_input : string)
| TObservation (text : string)
| TFinalAnswer (text : string).

Inductive run_status : Type := Pending | Succeeded | Stopped.

(** Modelled from the spec: the RunState (3).  The status Failed is an
    exception that leaves [run]. *)
Record RunState : Type :=
  { transcript : list turn; iterations_used : nat; run_status_of : run_status }.

Record answer : Type := { answer_text : string; final_state : RunState }.

(** Lines 208-209: the budget and the early-stopping method the program
    asks for. *)
Definition max_iterations : nat := 3.
Definition early_stopping_method : string := "generate".

Section Loop.

Variable W : world.

(** Modelled from the spec: the marker scan of the OutputParser (4.1),
    whose grammar the specification leaves open. *)
Variable scan : string -> parsed.

(** Modelled from the spec: the rendering of the prompt (4.3, step 1),
    of its variant for the forced last call (step 4), and the text of
    the observation that answers a malformed completion (step 3). *)
Variable build_prompt : list turn -> string -> string.
Variable build_final_prompt : list turn -> string -> string.
Variable malformed_observation : string.

(** Modelled from the spec: the OutputParser (4.1); a tool name that is
    not registered makes a ParseError. *)
Definition OutputParser (raw : string) : parsed :=
  match scan raw with
  | Action tool_name tool_input =>
      match lookup_tool W tool_name with
      | Some _ => Action tool_name tool_input
      | None => ParseError raw
      end
  | p => p
  end.

(** Modelled from the spec: the Model capability, [complete(prompt)]. *)
Definition complete (prompt : string) : py string :=
  extern (LlmComplete prompt) (llama W prompt).

(** Modelled from the spec: the ToolRegistry capability,
    [invoke(tool_name, input)] (4.2). *)
Definition invoke (tool_name input : string) : py string :=
  match lookup_tool W tool_name with
  | Some tool => func tool input
  | None => throw (KeyError tool_name)
  end.

Definition record (st : RunState) (turns : list turn) : RunState :=
  {| transcript := (transcript st ++ turns)%list;
     iterations_used := S (iterations_used st);
     run_status_of := Pending |}.

Definition finish (st : RunState) (s : run_status) (turns : list turn)
           (text : string) : answer :=
  {| answer_text := text;
     final_state := {| transcript := (transcript st ++ turns)%list;
                       iterations_used := iterations_used st;
                       run_status_of := s |} |}.

(** Modelled from the spec: the transition of 4.3, with [remaining]
    iterations of the budget left. *)
Fixpoint iterate (remaining : nat) (question : string) (st : RunState)
  : py answer :=
  match remaining with
  | O =>
      (* step 4: the budget is used up, one forced last call *)
      raw <- complete (build_final_prompt (transcript st) question) ;;
      match OutputParser raw with
      | FinalAnswer text => ret (finish st Succeeded [TFinalAnswer text] text)
      | _ => ret (finish st Stopped [] raw)
      end
  | S remaining' =>
      (* steps 1-3 *)
      raw <- complete (build_prompt (transcript st) question) ;;
      match OutputParser raw with
      | FinalAnswer text => ret (finish st Succeeded [TFinalAnswer text] text)
      | Action tool_name tool_input =>
          observation <- invoke tool_name tool_input ;;
          iterate remaining' question
            (record st [TAction tool_name tool_input; TObservation observation])
      | ParseError _ =>
          iterate remaining' question
            (record st [TObservation malformed_observation])
      end
  end.

Definition initial : RunState :=
  {| transcript := []; iterations_used := 0; run_status_of := Pending |}.

(** Modelled from the spec: [run(question)] under a budget of [budget]
    iterations. *)
Definition run_with (budget : nat) (question : string) : py answer :=
  iterate budget question initial.

(** [agent.run(question)] under the budget of line 208. *)
Definition run (question : string) : py answer :=
  run_with max_iterations question.

End Loop.

End AgentLoop.

(** ** The vocabulary of the properties *)

(** *** Computations that hand back a value whatever happens *)

Definition returns {A} (m : py A) : Prop :=
  forall h, exists a, result (m h) = Ret a.

(** *** Computations that catch nothing

    The only exception such a computation records is the one that leaves
    it. *)

Definition direct_run {A} (r : outcome A * list event) : Prop :=
  match r with
  | (Ret _, ev) => forall e, ~ In (Raised e) ev
  | (Raise e, ev) => forall e', In (Raised e') ev -> e' = e
  end.

Definition direct {A} (m : py A) : Prop := forall h, direct_run (m h).

(** A run reports its failure under [prefix]: whenever an exception was
    raised in it, what it returned is [prefix] followed by the text of
    that exception. *)
Definition reports (prefix : string) (run : outcome string * list event) : Prop :=
  forall e, In (Raised e) (events run) -> result run = Ret (prefix ++ str_exn e).

(** *** Computations that do not call the model *)

Definition is_model_call (ev : event) : bool :=
  match ev with
  | Called (LlmComplete _) => true
  | _ => false
  end.

(** The number of Model calls among the events. *)
Definition model_calls (evs : list event) : nat :=
  List.length (filter is_model_call evs).

Definition quiet {A} (m : py A) : Prop :=
  forall h, model_calls (events (m h)) = 0.

(** The lookup for [query], started after [h], succeeds with [summary]:
    either the search names a first article whose page and summary load, or
    the outer [try] ends in a [DisambiguationError] whose first option has
    a page and a summary that load. *)
Inductive lookup_succeeds (W : world) (query : string) (h : history)
  : string -> Prop :=
| found_directly title others p summary :
    let q := clean_query query in
    wikipedia_search W q h = Ret (title :: others) ->
    wikipedia_page W title (h ++ [Called (WikipediaSearch q)])%list = Ret p ->
    page_summary W p
      (h ++ [Called (WikipediaSearch q); Called (WikipediaPage title)])%list = Ret summary ->
    lookup_succeeds W query h summary
| found_by_first_option message first others ev p summary :
    wikipedia_lookup W (clean_query query) h
    = (Raise (DisambiguationError message (first :: others)), ev) ->
    wikipedia_page W first (h ++ ev)%list = Ret p ->
    page_summary W p (h ++ ev ++ [Called (WikipediaPage first)])%list = Ret summary ->
    lookup_succeeds W query h summary.

(** The [query] field of a JSON body, when it has one: only an object has
    fields. *)
Definition query_field (json : pyval) : option pyval :=
  match json with
  | PyDict d => lookup "query" d
  | _ => None
  end.

(** The two error responses of the endpoint. *)
Definition no_query_response : http_response :=
  {| body := [("error", PyStr "No query provided")]; status := 400 |}.

Definition error_response (e : exn) : http_response :=
  {| body := [("error", PyStr (str_exn e))]; status := 500 |}.

(** The labels of the action protocol. *)
Definition protocol_labels : list string :=
  ["Question:"; "Thought:"; "Action:"; "Action Input:"; "Observation:";
   "Final Answer:"].

(** The tool names a line lists after its last colon, separated by commas,
    the last one introduced by [or]. *)
Definition listed_names (line : string) : list string :=
  match rev (PyStr.split ":"%char line) with
  | [] => []
  | names :: _ =>
      map (fun item =>
             let item := PyStr.strip " " item in
             if String.prefix "or " item
             then substring 3 (String.length item - 3) item
             else item)
          (PyStr.split ","%char names)
  end.

(** The values the template allows after [Action:]. *)
Definition action_values (prompt : string) : list string :=
  match List.find (PyStr.startswith "Action:") (PyStr.lines prompt) with
  | Some line => listed_names line
  | None => []
  end.

(** ** Two worlds to run the program in *)

Definition ConnectionError : exn :=
  Exception "ConnectionError" "Connection refused".

(** A machine without network and without model: every call that leaves
    the program fails, and [eval] answers as the interpreter does on the
    few sources used below. *)
Definition offline : world :=
  {| wikipedia_search := fun _ _ => Raise ConnectionError;
     wikipedia_page := fun _ _ => Raise ConnectionError;
     page_summary := fun _ _ => Raise ConnectionError;
     ddgs_text := fun _ _ => Raise ConnectionError;
     eval_other := fun source _ =>
       if String.eqb source "1/0"
       then Raise (Exception "ZeroDivisionError" "division by zero")
       else if String.eqb source "1/2"
       then Ret (PyObject "float" "0.5" true)
       else Raise (Exception "SyntaxError" "invalid syntax");
     requests_get := fun _ _ => Raise ConnectionError;
     response_json := fun _ => Raise (Exception "JSONDecodeError" "Expecting value");
     ET_fromstring := fun _ => Raise (Exception "ParseError" "syntax error");
     llama := fun _ _ => Raise ConnectionError;
     int_max_str_digits := 4300;
     str_container := fun _ => "[...]" |}.

(** A summary of 810 characters. *)
Definition long_summary : string :=
  String.concat "" (repeat "Rocq is a proof assistant. " 30).

(** A machine on which Wikipedia answers: [Mercury] is ambiguous, every
    other title has a page, and every page has the same long summary. *)
Definition encyclopedia : world :=
  {| wikipedia_search := fun query _ => Ret [query];
     wikipedia_page := fun title _ =>
       if String.eqb title "Mercury"
       then Raise (DisambiguationError "Mercury may refer to: "
                     ["Mercury (planet)"; "Mercury (element)"])
       else Ret {| page_title := title; pageid := 1 |};
     page_summary := fun _ _ => Ret long_summary;
     ddgs_text := ddgs_text offline;
     eval_other := eval_other offline;
     requests_get := requests_get offline;
     response_json := response_json offline;
     ET_fromstring := ET_fromstring offline;
     llama := llama offline;
     int_max_str_digits := 4300;
     str_container := str_container offline |}.

(** An agent whose model cannot be reached. *)
Definition unreachable_agent : pyval -> py string :=
  fun _ => throw (Exception "ModelUnavailable" "the model backend is unreachable").

(** A scan for the two shapes of completion used below: a first line
    [Final Answer: text], or the lines [Action: name] and
    [Action Input: input]. *)
Definition after (label line : string) : option string :=
  if String.prefix label line
  then Some (substring (String.length label)
               (String.length line - String.length label) line)
  else None.

Definition two_line_scan (raw : string) : AgentLoop.parsed :=
  match PyStr.lines raw with
  | first :: rest =>
      match after "Final Answer: " first, after "Action: " first, rest with
      | Some text, _, _ => AgentLoop.FinalAnswer text
      | None, Some tool_name, second :: _ =>
          match after "Action Input: " second with
          | Some tool_input => AgentLoop.Action tool_name tool_input
          | None => AgentLoop.ParseError raw
          end
      | _, _, _ => AgentLoop.ParseError raw
      end
  | [] => AgentLoop.ParseError raw
  end.

(** A machine whose model first asks for BasicMath on [2+2] and, called
    again, gives its final answer. *)
Definition scripted : world :=
  {| wikipedia_search := wikipedia_search offline;
     wikipedia_page := wikipedia_page offline;
     page_summary := page_summary offline;
     ddgs_text := ddgs_text offline;
     eval_other := eval_other offline;
     requests_get := requests_get offline;
     response_json := response_json offline;
     ET_fromstring := ET_fromstring offline;
     llama := fun _ h =>
       match model_calls h with
       | O => Ret ("Action: BasicMath" ++ PyStr.nl ++ "Action Input: 2+2")
       | _ => Ret "Final Answer: 4"
       end;
     int_max_str_digits := 4300;
     str_container := str_container offline |}.

(** A machine whose model never follows the format. *)
Definition confused : world :=
  {| wikipedia_search := wikipedia_search offline;
     wikipedia_page := wikipedia_page offline;
     page_summary := page_summary offline;
     ddgs_text := ddgs_text offline;
     eval_other := eval_other offline;
     requests_get := requests_get offline;
     response_json := response_json offline;
     ET_fromstring := ET_fromstring offline;
     llama := fun _ _ => Ret "xyzzy";
     int_max_str_digits := 4300;
     str_container := str_container offline |}.

Definition plain_prompt (transcript : list AgentLoop.turn) (question : string)
  : string := question.

(** ** More vocabulary: what a computation calls *)

(** The calls among the events, in the order in which they were made. *)
Fixpoint calls (evs : list event) : list call :=
  match evs with
  | [] => []
  | Called c :: evs' => c :: calls evs'
  | Raised _ :: evs' => calls evs'
  end.

(** Computations that stay inside the program. *)
Definition callfree {A} (m : py A) : Prop :=
  forall h, calls (events (m h)) = [].

(** What loading one page and its summary may call (lines 31-32, 36-37):
    nothing when it is not reached, the page alone when that fails, the
    page and its summary otherwise. *)
Definition page_calls (l : list call) : Prop :=
  l = []
  \/ (exists title, l = [WikipediaPage title])
  \/ (exists title p, l = [WikipediaPage title; PageSummary p]).

(** What [safe_wikipedia_search] says when the search finds nothing, for
    the cleaned query [q]. *)
Definition no_articles (q : string) : string :=
  "No Wikipedia articles found for '" ++ q ++ "'".

(** The block [safe_duckduckgo_search] writes for a result with this title
    and body and no [link] (lines 58-60). *)
Definition duckduckgo_block (title body : string) : string :=
  "- " ++ title ++ PyStr.nl ++ "  " ++ (PyStr.slice_to 200 body ++ "...") ++ PyStr.nl
  ++ "  Source: No link available".

(** A search result with a title and a body that are strings, and no key
    [link]. *)
Definition titled (r : dict) (tb : string * string) : Prop :=
  lookup "title" r = Some (PyStr (fst tb))
  /\ lookup "body" r = Some (PyStr (snd tb))
  /\ lookup "link" r = None.

(** [entry.find(tag).text] where nothing raises: [None] when there is no
    such child. *)
Definition child_text (tag : string) (entry : element) : option (option string) :=
  option_map text_of (find tag entry).

(** The block [search_arxiv] writes for an entry (line 92). *)
Definition arxiv_block (title link : option string) (summary : string) : string :=
  "Title: " ++ format_optional title ++ PyStr.nl
  ++ "Link: " ++ format_optional link ++ PyStr.nl
  ++ "Summary: " ++ PyStr.slice_to 200 summary ++ "..." ++ PyStr.nl.

(** An entry with the three children the loop reads, the summary with a
    text. *)
Definition complete_entry (entry : element)
  (fields : option string * option string * string) : Prop :=
  let '(title, link, summary) := fields in
  child_text (atom "title") entry = Some title
  /\ child_text (atom "id") entry = Some link
  /\ child_text (atom "summary") entry = Some (Some summary).

(** An entry the loop cannot format: a child is missing, or the summary has
    no text. *)
Definition broken_entry (entry : element) : Prop :=
  child_text (atom "title") entry = None
  \/ child_text (atom "summary") entry = None
  \/ child_text (atom "summary") entry = Some None
  \/ child_text (atom "id") entry = None.

(** The block [search_pubmed] writes for a paper (line 124). *)
Definition pubmed_block (item : string * string * string) : string :=
  let '(id, title, abstract) := item in
  "Title: " ++ title ++ PyStr.nl
  ++ "PubMed ID: " ++ id ++ PyStr.nl
  ++ "Abstract: " ++ PyStr.slice_to 200 abstract ++ "..." ++ PyStr.nl.

(** [paper.get(key, default)] gives the string [s]: the key holds it, or the
    key is missing and [s] is the default. *)
Definition field_or (key default : string) (paper : dict) (s : string) : Prop :=
  lookup key paper = Some (PyStr s) \/ (lookup key paper = None /\ s = default).

(** The summaries hold, under this identifier, a paper with this title and
    abstract, each present as a string or missing and replaced by its
    default. *)
Definition paper_of (by_id : dict) (id : string) (item : string * string * string)
  : Prop :=
  let '(id', title, abstract) := item in
  id' = id
  /\ exists paper,
       lookup id by_id = Some (PyDict paper)
       /\ field_or "title" "No title available" paper title
       /\ field_or "abstract" "No abstract available" paper abstract.

(** The characters line 25 strips from the ends of a query. *)
Definition quotes : string := String PyStr.dquote (String PyStr.squote EmptyString).

(** A string that does not start with a character of [chars]. *)
Definition headless (chars s : string) : Prop :=
  match s with
  | EmptyString => True
  | String c _ => PyStr.mem c chars = false
  end.

(** [data.get('esearchresult', {}).get('idlist', [])] (line 108) when
    neither [get] raises: a missing key gives its default. *)
Definition idlist_of (data : pyval) : option pyval :=
  match data with
  | PyDict d =>
      match lookup "esearchresult" d with
      | None => Some (PyList [])
      | Some (PyDict esearchresult) =>
          Some (match lookup "idlist" esearchresult with
                | Some v => v
                | None => PyList []
                end)
      | Some _ => None
      end
  | _ => None
  end.

(** The items of a list when all of them are strings. *)
Fixpoint all_strings (items : list pyval) : option (list string) :=
  match items with
  | [] => Some []
  | PyStr s :: rest => option_map (cons s) (all_strings rest)
  | _ :: _ => None
  end.

(** The strings that [",".join(v)] joins and that [for id in v] goes
    through: the items of a list of strings, the characters of a string,
    the keys of a dictionary. *)
Definition joined_strings (v : pyval) : option (list string) :=
  match v with
  | PyList l => all_strings l
  | PyStr s => Some (PyStr.chars s)
  | PyDict d => Some (map fst d)
  | _ => None
  end.

(** The esearch request for [query], made after [h], names the identifiers
    [ids]: it is answered, with a status that [raise_for_status] lets
    through, by a response whose JSON holds a list of identifiers that
    Python takes for true and whose items are the strings [ids]. *)
Definition esearch_names (W : world) (query : string) (h : history)
  (ids : list string) : Prop :=
  exists response data idlist,
    requests_get W (esearch_url query) h = Ret response
    /\ ((status_code response < 400)%Z \/ (600 <= status_code response)%Z)
    /\ response_json W response = Ret data
    /\ idlist_of data = Some idlist
    /\ truthy idlist = true
    /\ joined_strings idlist = Some ids.

(** A machine for trying the tools: Wikipedia knows nothing about
    [nothing], has lost the page [gone], and finds [Mercury] and [Java]
    ambiguous, the first option of [Java] being lost too. *)
Definition ok_response (url text : string) : response :=
  {| status_code := 200; reason := "OK"; url := url; text := text |}.

Definition lab : world :=
  {| wikipedia_search := fun query _ =>
       if String.eqb query "nothing" then Ret [] else Ret [query];
     wikipedia_page := fun title _ =>
       if String.eqb title "gone" then Raise (PageError "Page id gone does not match any pages.")
       else if String.eqb title "Mercury"
       then Raise (DisambiguationError "Mercury may refer to: "
                     ["Mercury (planet)"; "Mercury (element)"])
       else if String.eqb title "Java"
       then Raise (DisambiguationError "Java may refer to: " ["gone"; "Java (island)"])
       else Ret {| page_title := title; pageid := 1 |};
     page_summary := fun _ _ => Ret long_summary;
     ddgs_text := fun query _ =>
       if String.eqb query "nothing" then Ret []
       else if String.eqb query "untitled"
       then Ret [[("title", PyStr "Rocq"); ("body", PyStr "A proof assistant.")];
                 [("href", PyStr "https://example.org")]]
       else Ret [[("title", PyStr "Rocq"); ("href", PyStr "https://rocq-prover.org");
                  ("body", PyStr long_summary)];
                 [("title", PyStr "Coq"); ("href", PyStr "https://coq.inria.fr");
                  ("body", PyStr "The former name.")]];
     eval_other := eval_other offline;
     requests_get := fun url _ => Ret (ok_response url url);
     response_json := fun r =>
       if String.eqb (text r) (esearch_url "nothing")
       then Ret (PyDict [("esearchresult", PyDict [("idlist", PyList [])])])
       else if String.eqb (text r) (esearch_url "aspirin")
       then Ret (PyDict [("esearchresult",
                          PyDict [("idlist", PyList [PyStr "11"; PyStr "12"])])])
       else Ret (PyDict [("result",
                          PyDict [("11", PyDict [("title", PyStr "Aspirin and the heart");
                                                 ("abstract", PyStr long_summary)]);
                                  ("12", PyDict [])])]);
     ET_fromstring := fun text =>
       if String.eqb text (arxiv_url "nothing")
       then Ret (Element (atom "feed") None [Element (atom "title") (Some "arXiv") []])
       else if String.eqb text (arxiv_url "broken")
       then Ret (Element (atom "feed") None
                   [Element (atom "entry") None
                      [Element (atom "title") (Some "No summary here") [];
                       Element (atom "id") (Some "http://arxiv.org/abs/1") []]])
       else Ret (Element (atom "feed") None
                   [Element (atom "title") (Some "arXiv") [];
                    Element (atom "entry") None
                      [Element (atom "id") (Some "http://arxiv.org/abs/2") [];
                       Element (atom "title") None [];
                       Element (atom "summary") (Some long_summary) []]]);
     llama := llama offline;
     int_max_str_digits := 4300;
     str_container := str_container offline |}.

(** ** Facts about the monad *)

Section MonadFacts.

Context {A B : Type}.

Lemma bind_ret_run (m : py A) (k : A -> py B) h a ev :
  m h = (Ret a, ev) ->
  bind m k h = (result (k a (h ++ ev)%list), (ev ++ events (k a (h ++ ev)%list))%list).
Proof.
  intros Hm. unfold bind. rewrite Hm.
  destruct (k a (h ++ ev)%list) as [r ev']. reflexivity.
Qed.

Lemma bind_raise_run (m : py A) (k : A -> py B) h e ev :
  m h = (Raise e, ev) -> bind m k h = (Raise e, ev).
Proof. intros Hm. unfold bind. rewrite Hm. reflexivity. Qed.

Lemma try_ret_run (m : py A) handler h a ev :
  m h = (Ret a, ev) -> try_except m handler h = (Ret a, ev).
Proof. intros Hm. unfold try_except. rewrite Hm. reflexivity. Qed.

Lemma try_raise_run (m : py A) handler h e ev :
  m h = (Raise e, ev) ->
  try_except m handler h
  = (result (handler e (h ++ ev)%list),
     (ev ++ events (handler e (h ++ ev)%list))%list).
Proof.
  intros Hm. unfold try_except. rewrite Hm.
  destruct (handler e (h ++ ev)%list) as [r ev']. reflexivity.
Qed.

End MonadFacts.

(** *** Computations that hand back a value whatever happens *)

Lemma returns_ret {A} (a : A) : returns (ret a).
Proof. intros h. exists a. reflexivity. Qed.

Lemma returns_try {A} (m : py A) handler :
  (forall e, returns (handler e)) -> returns (try_except m handler).
Proof.
  intros Hh h. destruct (m h) as [[a | e] ev] eqn:Hm.
  - exists a. rewrite (try_ret_run _ _ _ _ _ Hm). reflexivity.
  - rewrite (try_raise_run _ _ _ _ _ Hm). apply Hh.
Qed.

(** *** Computations that catch nothing *)

Lemma direct_ret {A} (a : A) : direct (ret a).
Proof. intros h e []. Qed.

Lemma direct_throw {A} (e : exn) : direct (@throw A e).
Proof. intros h e' [H | []]. congruence. Qed.

Lemma direct_lift {A} (o : outcome A) : direct (lift o).
Proof. destruct o; [apply direct_ret | apply direct_throw]. Qed.

Lemma direct_extern {A} c (answer : history -> outcome A) :
  direct (extern c answer).
Proof.
  intros h. unfold extern. destruct (answer h); cbn.
  - intros e [H | []]. discriminate.
  - intros e' [H | [H | []]]; congruence.
Qed.

Lemma direct_bind {A B} (m : py A) (k : A -> py B) :
  direct m -> (forall a, direct (k a)) -> direct (bind m k).
Proof.
  intros Hm Hk h. specialize (Hm h).
  destruct (m h) as [[a | e] ev] eqn:E.
  - rewrite (bind_ret_run _ _ _ _ _ E). specialize (Hk a (h ++ ev)%list).
    destruct (k a (h ++ ev)%list) as [[b | e] ev']; cbn in *.
    + intros e0 Hin. apply in_app_or in Hin as [Hin | Hin].
      * exact (Hm _ Hin).
      * exact (Hk _ Hin).
    + intros e0 Hin. apply in_app_or in Hin as [Hin | Hin].
      * destruct (Hm _ Hin).
      * exact (Hk _ Hin).
  - rewrite (bind_raise_run _ _ _ _ _ E). exact Hm.
Qed.

Lemma direct_for_each {A B} (body : B -> A -> py B) xs :
  (forall acc x, direct (body acc x)) -> forall acc, direct (for_each body xs acc).
Proof.
  intros Hb. induction xs as [| x xs IH]; intros acc; cbn [for_each].
  - apply direct_ret.
  - apply direct_bind; [apply Hb | exact IH].
Qed.

(** A handler that only builds its answer sees the one exception of a
    body that catches nothing. *)
Lemma try_direct {A} (m : py A) (f : exn -> A) h e :
  direct m ->
  In (Raised e) (events (try_except m (fun e => ret (f e)) h)) ->
  result (try_except m (fun e => ret (f e)) h) = Ret (f e)
  /\ result (m h) = Raise e.
Proof.
  intros Hm Hin. specialize (Hm h).
  destruct (m h) as [[a | e0] ev] eqn:E.
  - rewrite (try_ret_run _ _ _ _ _ E) in Hin. destruct (Hm _ Hin).
  - rewrite (try_raise_run _ _ _ _ _ E) in *. cbn in *.
    rewrite app_nil_r in Hin. rewrite (Hm _ Hin). split; reflexivity.
Qed.

(** *** Computations that do not call the model *)

Lemma model_calls_app evs evs' :
  model_calls (evs ++ evs') = model_calls evs + model_calls evs'.
Proof. unfold model_calls. rewrite filter_app, length_app. reflexivity. Qed.

Lemma quiet_ret {A} (a : A) : quiet (ret a).
Proof. intros h. reflexivity. Qed.

Lemma quiet_throw {A} (e : exn) : quiet (@throw A e).
Proof. intros h. reflexivity. Qed.

Lemma quiet_lift {A} (o : outcome A) : quiet (lift o).
Proof. destruct o; [apply quiet_ret | apply quiet_throw]. Qed.

Lemma quiet_extern {A} c (answer : history -> outcome A) :
  is_model_call (Called c) = false -> quiet (extern c answer).
Proof.
  intros Hc h. unfold extern, model_calls.
  destruct (answer h); cbn [events snd filter]; rewrite Hc; reflexivity.
Qed.

Lemma quiet_bind {A B} (m : py A) (k : A -> py B) :
  quiet m -> (forall a, quiet (k a)) -> quiet (bind m k).
Proof.
  intros Hm Hk h. specialize (Hm h).
  destruct (m h) as [[a | e] ev] eqn:E.
  - rewrite (bind_ret_run _ _ _ _ _ E). cbn [events snd] in *.
    rewrite model_calls_app, Hm. apply Hk.
  - rewrite (bind_raise_run _ _ _ _ _ E). exact Hm.
Qed.

Lemma quiet_try {A} (m : py A) handler :
  quiet m -> (forall e, quiet (handler e)) -> quiet (try_except m handler).
Proof.
  intros Hm Hh h. specialize (Hm h).
  destruct (m h) as [[a | e] ev] eqn:E.
  - rewrite (try_ret_run _ _ _ _ _ E). exact Hm.
  - rewrite (try_raise_run _ _ _ _ _ E). cbn [events snd] in *.
    rewrite model_calls_app, Hm. apply Hh.
Qed.

Lemma quiet_for_each {A B} (body : B -> A -> py B) xs :
  (forall acc x, quiet (body acc x)) -> forall acc, quiet (for_each body xs acc).
Proof.
  intros Hb. induction xs as [| x xs IH]; intros acc; cbn [for_each].
  - apply quiet_ret.
  - apply quiet_bind; [apply Hb | exact IH].
Qed.

(** ** Facts about the interpreter's operations and the tools *)

Create HintDb direct_db.
Create HintDb quiet_db.

#[local] Hint Resolve direct_ret direct_throw direct_lift direct_extern : direct_db.
#[local] Hint Resolve quiet_ret quiet_throw quiet_lift : quiet_db.

(** Goes through a computation along its binds, branches and loops. *)
Ltac walk_step :=
  match goal with
  | |- _ (match ?x with _ => _ end) => destruct x
  | |- _ (let _ := _ in _) => cbv zeta
  end.

Ltac walk_direct :=
  repeat first
    [ progress auto with direct_db nocore
    | apply @direct_bind; [| intros ?]
    | apply @direct_for_each; intros ? ?
    | walk_step ].

Ltac walk_quiet :=
  repeat first
    [ progress auto with quiet_db nocore
    | apply @quiet_extern; reflexivity
    | apply @quiet_bind; [| intros ?]
    | apply @quiet_for_each; intros ? ?
    | walk_step ].

Section ToolFacts.

Variable W : world.

Lemma direct_py_str v : direct (py_str W v).
Proof. unfold py_str. walk_direct. Qed.

Lemma direct_py_slice_to n v : direct (py_slice_to n v).
Proof. unfold py_slice_to. walk_direct. Qed.

Lemma direct_py_add_str v s : direct (py_add_str v s).
Proof. unfold py_add_str. walk_direct. Qed.

Lemma direct_py_get v key default : direct (py_get v key default).
Proof. unfold py_get. walk_direct. Qed.

Lemma direct_py_getitem v key : direct (py_getitem v key).
Proof. unfold py_getitem. walk_direct. Qed.

Lemma direct_raise_for_status r : direct (raise_for_status r).
Proof. unfold raise_for_status. walk_direct. Qed.

Lemma direct_builtin_eval source : direct (builtin_eval W source).
Proof. unfold builtin_eval. walk_direct. Qed.

Lemma direct_find_text tag entry : direct (find_text tag entry).
Proof. unfold find_text. walk_direct. Qed.

Hint Resolve direct_py_str direct_py_slice_to direct_py_add_str direct_py_get
  direct_py_getitem direct_raise_for_status direct_builtin_eval
  direct_find_text : direct_db.

Lemma direct_format_entry results entry : direct (format_entry results entry).
Proof. unfold format_entry. walk_direct. Qed.

Hint Resolve direct_format_entry : direct_db.

Lemma direct_arxiv_fetch query : direct (arxiv_fetch W query).
Proof. unfold arxiv_fetch. walk_direct. Qed.

Lemma direct_math_body expression :
  direct (if negb (all_allowed expression) then ret invalid_expression
          else result <- builtin_eval W expression ;; py_str W result).
Proof. walk_direct. Qed.

Lemma direct_py_iter v : direct (py_iter v).
Proof. unfold py_iter. walk_direct. Qed.

Hint Resolve direct_py_iter : direct_db.

Lemma direct_str_items v : direct (str_items v).
Proof. unfold str_items. walk_direct. Qed.

Lemma direct_format_result acc r : direct (format_result W acc r).
Proof. unfold format_result. walk_direct. Qed.

Lemma direct_format_paper data acc id : direct (format_paper W data acc id).
Proof. unfold format_paper. walk_direct. Qed.

Hint Resolve direct_str_items direct_format_result direct_format_paper : direct_db.

Lemma direct_duckduckgo_body query :
  direct (let query := clean_query query in
          results <- extern (DdgsText query) (ddgs_text W query) ;;
          match results with
          | [] => ret "No results found on DuckDuckGo."
          | _ =>
              formatted_results <- for_each (format_result W) results [] ;;
              ret (PyStr.join (PyStr.nl ++ PyStr.nl) formatted_results)
          end).
Proof. walk_direct. Qed.

Lemma direct_pubmed_fetch query : direct (pubmed_fetch W query).
Proof. unfold pubmed_fetch. walk_direct. Qed.

(** None of the tools reaches the model. *)

Lemma quiet_py_str v : quiet (py_str W v).
Proof. unfold py_str. walk_quiet. Qed.

Lemma quiet_py_slice_to n v : quiet (py_slice_to n v).
Proof. unfold py_slice_to. walk_quiet. Qed.

Lemma quiet_py_add_str v s : quiet (py_add_str v s).
Proof. unfold py_add_str. walk_quiet. Qed.

Lemma quiet_py_get v key default : quiet (py_get v key default).
Proof. unfold py_get. walk_quiet. Qed.

Lemma quiet_py_getitem v key : quiet (py_getitem v key).
Proof. unfold py_getitem. walk_quiet. Qed.

Lemma quiet_py_iter v : quiet (py_iter v).
Proof. unfold py_iter. walk_quiet. Qed.

Lemma quiet_raise_for_status r : quiet (raise_for_status r).
Proof. unfold raise_for_status. walk_quiet. Qed.

Lemma quiet_find_text tag entry : quiet (find_text tag entry).
Proof. unfold find_text. walk_quiet. Qed.

Hint Resolve quiet_py_str quiet_py_slice_to quiet_py_add_str quiet_py_get
  quiet_py_getitem quiet_py_iter quiet_raise_for_status quiet_find_text
  : quiet_db.

Lemma quiet_str_items v : quiet (str_items v).
Proof. unfold str_items. walk_quiet. Qed.

Lemma quiet_summary_of_page title : quiet (summary_of_page W title).
Proof. unfold summary_of_page. walk_quiet. Qed.

Hint Resolve quiet_str_items quiet_summary_of_page : quiet_db.

Lemma quiet_safe_wikipedia_search query : quiet (safe_wikipedia_search W query).
Proof.
  unfold safe_wikipedia_search, wikipedia_lookup. cbv zeta.
  apply quiet_try; [| intros e; destruct e; try apply quiet_try; intros ].
  all: walk_quiet.
Qed.

Lemma quiet_safe_duckduckgo_search query :
  quiet (safe_duckduckgo_search W query).
Proof.
  unfold safe_duckduckgo_search, format_result.
  apply quiet_try; [| intros e ]; walk_quiet.
Qed.

Lemma quiet_safe_math_eval expression : quiet (safe_math_eval W expression).
Proof.
  unfold safe_math_eval, builtin_eval.
  apply quiet_try; [| intros e ]; walk_quiet.
Qed.

Lemma quiet_search_arxiv query : quiet (search_arxiv W query).
Proof.
  unfold search_arxiv, arxiv_fetch, format_entry.
  destruct (negb _); [ walk_quiet |].
  apply quiet_try; [| intros e ]; walk_quiet.
Qed.

Lemma quiet_search_pubmed query : quiet (search_pubmed W query).
Proof.
  unfold search_pubmed, pubmed_fetch, format_paper.
  destruct (negb _); [ walk_quiet |].
  apply quiet_try; [| intros e ]; walk_quiet.
Qed.

Lemma quiet_tools : Forall (fun tool => forall input, quiet (func tool input)) (tools W).
Proof.
  repeat constructor; cbn [func]; intros input.
  - apply quiet_safe_wikipedia_search.
  - apply quiet_safe_duckduckgo_search.
  - apply quiet_safe_math_eval.
  - apply quiet_search_arxiv.
  - apply quiet_search_pubmed.
Qed.

End ToolFacts.

(** ** The tools *)

Section ToolProperties.

Variable W : world.

Lemma returns_safe_wikipedia_search query : returns (safe_wikipedia_search W query).
Proof.
  unfold safe_wikipedia_search. cbv zeta. apply returns_try.
  intros [m options | m | c m].
  - apply returns_try. intros _. apply returns_ret.
  - apply returns_ret.
  - apply returns_ret.
Qed.

Lemma returns_safe_duckduckgo_search query :
  returns (safe_duckduckgo_search W query).
Proof. apply returns_try. intros e. apply returns_ret. Qed.

Lemma returns_safe_math_eval expression : returns (safe_math_eval W expression).
Proof. apply returns_try. intros e. apply returns_ret. Qed.

Lemma returns_search_arxiv query : returns (search_arxiv W query).
Proof.
  unfold search_arxiv. destruct (negb _).
  - apply returns_ret.
  - apply returns_try. intros e. apply returns_ret.
Qed.

Lemma returns_search_pubmed query : returns (search_pubmed W query).
Proof.
  unfold search_pubmed. destruct (negb _).
  - apply returns_ret.
  - apply returns_try. intros e. apply returns_ret.
Qed.

(** A tool that is a guard followed by a [try] whose handler puts a prefix
    before the text of the exception. *)
Lemma guarded_reports (guard : bool) (early prefix : string) (body : py string) h :
  direct body ->
  reports prefix
    ((if guard then ret early
      else try_except body (fun e => ret (prefix ++ str_exn e))) h).
Proof.
  intros Hd e Hin. destruct guard; [destruct Hin |].
  exact (proj1 (try_direct body (fun e => prefix ++ str_exn e) h e Hd Hin)).
Qed.

(** C1.  The registry holds the five tools Wikipedia, DuckDuckGo,
    BasicMath, ArXiv and PubMed, and each of them, on every input string
    and after every history, ends by returning a string: whatever the
    world raises inside is caught before the tool's boundary.  What is
    returned then describes the failure.  DuckDuckGo, BasicMath, ArXiv and
    PubMed return their own prefix ([An error occurred while searching
    DuckDuckGo: ], [Error evaluating mathematical expression: ], [Error
    searching ArXiv: ], [Error searching PubMed: ]) followed by the text of
    the exception that was raised.  Wikipedia answers the exception that
    leaves its lookup by its class: a [PageError] with [No Wikipedia
    article found for] the query, any other exception with [An error
    occurred while searching Wikipedia: ] and its text, and a
    [DisambiguationError] with the summary of its first option or, when
    that cannot be had, with [Multiple Wikipedia articles found for] the
    query. *)
Theorem tools_never_raise :
  map name (tools W) = ["Wikipedia"; "DuckDuckGo"; "BasicMath"; "ArXiv"; "PubMed"]
  /\ Forall (fun tool =>
               forall (input : string) (h : history),
                 exists s : string, result (func tool input h) = Ret s)
            (tools W)
  /\ (forall query h e ev,
         wikipedia_lookup W (clean_query query) h = (Raise e, ev) ->
         result (safe_wikipedia_search W query h)
         = Ret (match e with
                | DisambiguationError _ options =>
                    match
                      result ((match options with
                               | first :: _ => summary_of_page W first
                               | [] => throw IndexError_list
                               end) (h ++ ev)%list)
                    with
                    | Ret summary => summary
                    | Raise _ =>
                        "Multiple Wikipedia articles found for '"
                        ++ clean_query query ++ "'. Please be more specific."
                    end
                | PageError _ =>
                    "No Wikipedia article found for '" ++ clean_query query ++ "'"
                | Exception _ _ =>
                    "An error occurred while searching Wikipedia: " ++ str_exn e
                end))
  /\ (forall query h,
         reports "An error occurred while searching DuckDuckGo: "
           (safe_duckduckgo_search W query h))
  /\ (forall expression h,
         reports "Error evaluating mathematical expression: "
           (safe_math_eval W expression h))
  /\ (forall query h, reports "Error searching ArXiv: " (search_arxiv W query h))
  /\ (forall query h, reports "Error searching PubMed: " (search_pubmed W query h)).
Proof.
  split; [reflexivity |]. split; [| split; [| repeat split]].
  - repeat constructor; cbn [func]; intros input h.
    + apply returns_safe_wikipedia_search.
    + apply returns_safe_duckduckgo_search.
    + apply returns_safe_math_eval.
    + apply returns_search_arxiv.
    + apply returns_search_pubmed.
  - intros query h e ev E. unfold safe_wikipedia_search. cbv zeta.
    rewrite (try_raise_run _ _ _ _ _ E). cbn [result fst].
    destruct e as [m options | m | c m]; try reflexivity.
    match goal with
    | |- context [try_except ?m _ ?hh] => destruct (m hh) as [[s | e] ev'] eqn:E'
    end.
    + rewrite (try_ret_run _ _ _ _ _ E'). reflexivity.
    + rewrite (try_raise_run _ _ _ _ _ E'). reflexivity.
  - intros query h.
    exact (guarded_reports false EmptyString _ _ h (direct_duckduckgo_body W query)).
  - intros expression h.
    exact (guarded_reports false EmptyString _ _ h (direct_math_body W expression)).
  - intros query h. unfold search_arxiv.
    apply guarded_reports. apply direct_arxiv_fetch.
  - intros query h. unfold search_pubmed.
    apply guarded_reports. apply direct_pubmed_fetch.
Qed.

(** What [safe_math_eval] does with an expression the whitelist rejects. *)
Lemma safe_math_eval_rejected expression h :
  all_allowed expression = false ->
  safe_math_eval W expression h = (Ret invalid_expression, []).
Proof.
  intros Hno. unfold safe_math_eval, try_except. rewrite Hno. reflexivity.
Qed.

Lemma not_all_allowed expression c :
  PyStr.mem c expression = true -> PyStr.mem c allowed_chars = false ->
  all_allowed expression = false.
Proof.
  unfold all_allowed.
  induction expression as [| d s IH]; cbn [PyStr.mem PyStr.all]; intros Hin Hout.
  - discriminate.
  - apply orb_true_iff in Hin as [Hcd | Hin].
    + apply Ascii.eqb_eq in Hcd. subst d. rewrite Hout. reflexivity.
    + rewrite (IH Hin Hout). apply andb_false_r.
Qed.

(** The calls of [safe_math_eval] into [eval]. *)
Lemma safe_math_eval_calls expression h c :
  In (Called c) (events (safe_math_eval W expression h)) ->
  c = BuiltinEval expression /\ all_allowed expression = true.
Proof.
  destruct (all_allowed expression) eqn:Hall.
  - unfold safe_math_eval, try_except, bind, builtin_eval, extern.
    rewrite Hall. cbn [negb].
    destruct (match Arith.arith_eval expression with
              | Some n => Ret (PyInt n)
              | None => eval_other W expression h
              end) as [v | e]; cbn.
    + unfold py_str.
      destruct v as [| [] | n | s | l | d | t s b]; cbn;
        try destruct (int_str_allowed W n); cbn;
        intuition congruence.
    + intuition congruence.
  - rewrite (safe_math_eval_rejected _ _ Hall). intros [].
Qed.

(** C3.  On an expression with a character outside the whitelist
    [0123456789+-*/(). ] [safe_math_eval] returns the fixed message and
    does nothing else, so [eval] is not reached; every source that does
    reach [eval] is the expression itself, made of whitelisted characters
    only; and when anything raises along the evaluation, the result is
    [Error evaluating mathematical expression: ] followed by the text of
    that exception. *)
Theorem safe_math_eval_whitelist (expression : string) (h : history) :
  ((exists c, PyStr.mem c expression = true /\ PyStr.mem c allowed_chars = false) ->
     safe_math_eval W expression h
     = (Ret "Invalid mathematical expression. Only basic operations are allowed.", []))
  /\ (forall source,
        In (Called (BuiltinEval source)) (events (safe_math_eval W expression h)) ->
        source = expression
        /\ PyStr.all (fun c => PyStr.mem c "0123456789+-*/(). ") source = true)
  /\ (forall e,
        In (Raised e) (events (safe_math_eval W expression h)) ->
        result (safe_math_eval W expression h)
        = Ret ("Error evaluating mathematical expression: " ++ str_exn e)).
Proof.
  split; [| split].
  - intros (c & Hin & Hout). apply safe_math_eval_rejected.
    exact (not_all_allowed _ _ Hin Hout).
  - intros source Hin. apply safe_math_eval_calls in Hin as [Heq Hall].
    injection Heq as ->. split; [reflexivity | exact Hall].
  - intros e Hin.
    exact (proj1 (try_direct _ _ _ _ (direct_math_body W expression) Hin)).
Qed.

Lemma small_int_str_allowed n :
  PyStr.digits n <= 640 -> int_str_allowed W n = true.
Proof.
  intros Hn. unfold int_str_allowed. apply orb_true_iff. right.
  apply Nat.leb_le. lia.
Qed.

(** C4.  The registry has a tool named BasicMath, and invoked on [2+2] it
    returns the string [4], having called [eval] once, on [2+2]. *)
Theorem basic_math_two_plus_two (h : history) :
  exists tool,
    lookup_tool W "BasicMath" = Some tool
    /\ func tool "2+2" h = (Ret "4", [Called (BuiltinEval "2+2")]).
Proof.
  eexists. split; [reflexivity |]. cbn [func].
  unfold safe_math_eval, try_except, bind, builtin_eval, extern.
  change (all_allowed "2+2") with true.
  change (Arith.arith_eval "2+2") with (Some 4%Z).
  cbn [negb py_str].
  rewrite small_int_str_allowed by (vm_compute; lia).
  reflexivity.
Qed.

(** C5.  Whenever an exception is raised while [search_arxiv] runs, by
    the HTTP fetch, the status check or the parsing of the response, the
    tool returns [Error searching ArXiv: ] followed by the text of that
    exception, a string that starts with [Error searching ArXiv:]. *)
Theorem search_arxiv_failure (query : string) (h : history) (e : exn) :
  In (Raised e) (events (search_arxiv W query h)) ->
  result (search_arxiv W query h) = Ret ("Error searching ArXiv: " ++ str_exn e)
  /\ PyStr.startswith "Error searching ArXiv:"
       ("Error searching ArXiv: " ++ str_exn e) = true
  /\ result (arxiv_fetch W query h) = Raise e.
Proof.
  unfold search_arxiv. destruct (negb (truthy (PyStr query))).
  - intros [].
  - intros Hin.
    destruct (try_direct _ _ _ _ (direct_arxiv_fetch W query) Hin) as [Hr Hb].
    repeat split; assumption || reflexivity.
Qed.

(** C9.  On the empty string [search_arxiv] and [search_pubmed] return
    [No query provided.] and perform nothing: no request, no other
    event. *)
Theorem empty_query_no_request (h : history) :
  search_arxiv W "" h = (Ret "No query provided.", [])
  /\ search_pubmed W "" h = (Ret "No query provided.", []).
Proof. split; reflexivity. Qed.

End ToolProperties.

(** [tools_never_raise] on a machine without network: each tool reports
    the refused connection in its own words. *)
Lemma tools_never_raise_witness :
  result (safe_duckduckgo_search offline "rocq" [])
  = Ret "An error occurred while searching DuckDuckGo: Connection refused"
  /\ result (search_arxiv offline "rocq" [])
     = Ret "Error searching ArXiv: Connection refused"
  /\ result (search_pubmed offline "rocq" [])
     = Ret "Error searching PubMed: Connection refused"
  /\ result (safe_wikipedia_search offline "rocq" [])
     = Ret "An error occurred while searching Wikipedia: Connection refused".
Proof.
  pose proof (tools_never_raise offline) as (_ & _ & Hw & Hd & _ & Ha & Hp).
  split; [| split; [| split]].
  - apply (Hd "rocq" [] ConnectionError). right. left. reflexivity.
  - apply (Ha "rocq" [] ConnectionError). right. left. reflexivity.
  - apply (Hp "rocq" [] ConnectionError). right. left. reflexivity.
  - exact (Hw "rocq" [] ConnectionError
             [Called (WikipediaSearch "rocq"); Raised ConnectionError] eq_refl).
Defined.

Example repr_of_keys :
  PyStr.repr "title" = "'title'"
  /\ PyStr.repr "it's" = String PyStr.dquote ("it's" ++ String PyStr.dquote "")
  /\ str_exn (KeyError "title") = "'title'".
Proof. repeat split; reflexivity. Qed.

(** [safe_math_eval_whitelist] on a machine without network: [1+x] is
    rejected, and the failure of [1/0] is reported. *)
Lemma safe_math_eval_whitelist_witness :
  safe_math_eval offline "1+x" [] = (Ret invalid_expression, [])
  /\ result (safe_math_eval offline "1/0" [])
     = Ret "Error evaluating mathematical expression: division by zero".
Proof.
  split.
  - apply (proj1 (safe_math_eval_whitelist offline "1+x" [])).
    exists "x"%char. split; reflexivity.
  - apply (proj2 (proj2 (safe_math_eval_whitelist offline "1/0" []))
             (Exception "ZeroDivisionError" "division by zero")).
    right. left. reflexivity.
Defined.

(** [search_arxiv_failure] on a machine without network: the fetch raises,
    and the tool reports it. *)
Lemma search_arxiv_failure_witness :
  In (Raised ConnectionError) (events (search_arxiv offline "quantum computing" []))
  /\ result (search_arxiv offline "quantum computing" [])
     = Ret "Error searching ArXiv: Connection refused".
Proof.
  assert (H : In (Raised ConnectionError)
                 (events (search_arxiv offline "quantum computing" []))).
  { right. left. reflexivity. }
  split; [exact H |].
  exact (proj1 (search_arxiv_failure offline "quantum computing" [] ConnectionError H)).
Defined.

(** The tools at work on the two machines. *)

Example math_float : safe_math_eval offline "1/2" [] = (Ret "0.5", [Called (BuiltinEval "1/2")]).
Proof. reflexivity. Qed.

Example math_arith : result (safe_math_eval offline " 2*-(3 + 4) - -1" []) = Ret "-13".
Proof. reflexivity. Qed.

Example math_syntax_error :
  result (safe_math_eval offline "2 +" [])
  = Ret "Error evaluating mathematical expression: invalid syntax".
Proof. reflexivity. Qed.

Example wikipedia_offline :
  result (safe_wikipedia_search offline "Rocq" [])
  = Ret "An error occurred while searching Wikipedia: Connection refused".
Proof. reflexivity. Qed.

Example pubmed_offline :
  search_pubmed offline "aspirin" []
  = (Ret "Error searching PubMed: Connection refused",
     [Called (RequestsGet (esearch_url "aspirin")); Raised ConnectionError]).
Proof. reflexivity. Qed.

Example arith_literals :
  Arith.arith_eval "00 + 10" = Some 10%Z /\ Arith.arith_eval "012" = None.
Proof. split; reflexivity. Qed.

Example arith_outside :
  Arith.arith_eval "2**2" = None /\ Arith.arith_eval "4/2" = None
  /\ Arith.arith_eval "()" = None /\ Arith.arith_eval "1 2" = None.
Proof. repeat split; reflexivity. Qed.

(** *** Slices *)

Lemma slice_to_length n s :
  String.length (PyStr.slice_to n s) = Nat.min n (String.length s).
Proof.
  unfold PyStr.slice_to. revert s.
  induction n as [| n IH]; intros [| c s]; cbn; try reflexivity.
  rewrite IH. reflexivity.
Qed.

Lemma slice_to_prefix n s : String.prefix (PyStr.slice_to n s) s = true.
Proof.
  unfold PyStr.slice_to. revert s.
  induction n as [| n IH]; intros [| c s]; cbn; try reflexivity.
  destruct (ascii_dec c c) as [_ | Hc]; [apply IH | destruct Hc; reflexivity].
Qed.

(** *** The Wikipedia tool on its success path *)

Lemma summary_of_page_run W title h p summary :
  wikipedia_page W title h = Ret p ->
  page_summary W p (h ++ [Called (WikipediaPage title)])%list = Ret summary ->
  summary_of_page W title h
  = (Ret (PyStr.slice_to 500 summary),
     [Called (WikipediaPage title); Called (PageSummary p)]).
Proof.
  intros Hp Hs. unfold summary_of_page, bind, extern.
  rewrite Hp, Hs. reflexivity.
Qed.

(** C10.  When the lookup succeeds, directly or through the first option
    of a disambiguation, [safe_wikipedia_search] returns the first 500
    characters of the summary of the chosen page: a prefix of the summary,
    of 500 characters or of the whole summary when that is shorter, and so
    never longer than 500 characters. *)
Theorem safe_wikipedia_search_summary
  (W : world) (query : string) (h : history) (summary : string) :
  lookup_succeeds W query h summary ->
  exists returned,
    result (safe_wikipedia_search W query h) = Ret returned
    /\ returned = PyStr.slice_to 500 summary
    /\ String.prefix returned summary = true
    /\ String.length returned = Nat.min 500 (String.length summary)
    /\ String.length returned <= 500.
Proof.
  intros Hok. exists (PyStr.slice_to 500 summary).
  split; [| split; [reflexivity | split; [apply slice_to_prefix | split ]]].
  - destruct Hok as [title others p summary q Hs Hp Hsum
                    | message first others ev p summary Hbody Hp Hsum].
    + unfold safe_wikipedia_search. fold q. cbv zeta.
      assert (Hrun : wikipedia_lookup W q h
                     = (Ret (PyStr.slice_to 500 summary),
                        [Called (WikipediaSearch q); Called (WikipediaPage title);
                         Called (PageSummary p)])).
      { unfold wikipedia_lookup.
        erewrite bind_ret_run by (unfold extern; rewrite Hs; reflexivity).
        replace (h ++ [Called (WikipediaSearch q); Called (WikipediaPage title)])%list
          with ((h ++ [Called (WikipediaSearch q)]) ++ [Called (WikipediaPage title)])%list
          in Hsum by (rewrite <- app_assoc; reflexivity).
        cbv beta iota.
        rewrite (summary_of_page_run _ _ _ _ _ Hp Hsum). reflexivity. }
      rewrite (try_ret_run _ _ _ _ _ Hrun). reflexivity.
    + unfold safe_wikipedia_search. cbv zeta.
      rewrite (try_raise_run _ _ _ _ _ Hbody). cbn [result fst].
      rewrite app_assoc in Hsum.
      erewrite try_ret_run by (apply (summary_of_page_run _ _ _ _ _ Hp Hsum)).
      reflexivity.
  - apply slice_to_length.
  - rewrite slice_to_length. apply Nat.le_min_l.
Qed.

(** [safe_wikipedia_search_summary] on the encyclopedia: a direct hit, and
    an ambiguous title settled by its first option; 500 characters of the
    810 come back. *)
Lemma safe_wikipedia_search_summary_witness :
  (exists returned,
      result (safe_wikipedia_search encyclopedia "Rocq" []) = Ret returned
      /\ returned = PyStr.slice_to 500 long_summary
      /\ String.prefix returned long_summary = true
      /\ String.length returned = Nat.min 500 (String.length long_summary)
      /\ String.length returned <= 500)
  /\ (exists returned,
         result (safe_wikipedia_search encyclopedia "Mercury" []) = Ret returned
         /\ returned = PyStr.slice_to 500 long_summary
         /\ String.prefix returned long_summary = true
         /\ String.length returned = Nat.min 500 (String.length long_summary)
         /\ String.length returned <= 500).
Proof.
  split.
  - apply (safe_wikipedia_search_summary encyclopedia "Rocq" [] long_summary).
    eapply found_directly; reflexivity.
  - apply (safe_wikipedia_search_summary encyclopedia "Mercury" [] long_summary).
    eapply found_by_first_option; reflexivity.
Defined.

Example wikipedia_truncates :
  option_map String.length
    (match result (safe_wikipedia_search encyclopedia "'Rocq'" []) with
     | Ret s => Some s
     | Raise _ => None
     end) = Some 500.
Proof. vm_compute. reflexivity. Qed.

(** ** The /search endpoint *)

Section EndpointProperties.

Variable agent_run : pyval -> py string.

(** C6.  A request whose JSON body is an object without a [query] field,
    or with the empty string as its [query], is answered with the error
    message [No query provided] under status 400, and nothing is
    performed on the way: [agent.run] is not invoked. *)
Theorem search_without_query (d : dict) (h : history) :
  lookup "query" d = None \/ lookup "query" d = Some (PyStr "") ->
  search agent_run {| request_json := Ret (PyDict d) |} h
  = (Ret no_query_response, [])
  /\ forall input,
       ~ In (Called (AgentRun input))
            (events (search agent_run {| request_json := Ret (PyDict d) |} h)).
Proof.
  intros Hq.
  assert (Hrun : search agent_run {| request_json := Ret (PyDict d) |} h
                 = (Ret no_query_response, [])).
  { unfold search, try_except, search_try, bind, lift, py_get, ret.
    cbn [request_json].
    destruct Hq as [-> | ->]; reflexivity. }
  split; [exact Hrun |]. intros input. rewrite Hrun. intros [].
Qed.

Lemma returns_search req : returns (search agent_run req).
Proof. apply returns_try. intros e. apply returns_ret. Qed.

(** C7.  The handler itself never raises.  Whatever exception leaves the
    body of its [try] (the reading of the request, the lookup of the
    query, the run of the agent) is answered with status 500 and a body
    whose one field, [error], holds [str(e)], the message of that
    exception and nothing more; in particular when the exception comes
    out of [agent.run]. *)
Theorem search_catches (req : request) (h : history) :
  (exists resp, result (search agent_run req h) = Ret resp)
  /\ (forall e,
        result (search_try agent_run req h) = Raise e ->
        result (search agent_run req h) = Ret (error_response e))
  /\ (forall d user_input e,
        request_json req = Ret (PyDict d) ->
        lookup "query" d = Some user_input ->
        truthy user_input = true ->
        result (agent_run user_input (h ++ [Called (AgentRun user_input)])%list)
        = Raise e ->
        result (search agent_run req h) = Ret (error_response e)).
Proof.
  assert (Hcatch : forall e,
             result (search_try agent_run req h) = Raise e ->
             result (search agent_run req h) = Ret (error_response e)).
  { intros e He. unfold search.
    destruct (search_try agent_run req h) as [r ev] eqn:Hbody.
    cbn [result fst] in He. subst r.
    rewrite (try_raise_run _ _ _ _ _ Hbody). reflexivity. }
  split; [apply returns_search | split; [exact Hcatch |]].
  intros d user_input e Hjson Hq Htruthy Hrun. apply Hcatch.
  unfold search_try, bind, lift, py_get, ret, traced.
  rewrite Hjson, Hq. cbn [app]. rewrite Htruthy. cbn [negb].
  rewrite !app_nil_r.
  destruct (agent_run user_input (h ++ [Called (AgentRun user_input)])%list)
    as [r ev]. cbn [result fst] in Hrun. subst r. reflexivity.
Qed.

End EndpointProperties.

(** [search_without_query] on a body without the field and on a body with
    an empty one. *)
Lemma search_without_query_witness :
  search unreachable_agent {| request_json := Ret (PyDict []) |} []
  = (Ret no_query_response, [])
  /\ search unreachable_agent
       {| request_json := Ret (PyDict [("query", PyStr "")]) |} []
     = (Ret no_query_response, []).
Proof.
  split.
  - apply (proj1 (search_without_query unreachable_agent [] []
                    (or_introl eq_refl))).
  - apply (proj1 (search_without_query unreachable_agent [("query", PyStr "")] []
                    (or_intror eq_refl))).
Defined.

(** Stated for every JSON body without a [query] field or with an empty
    one, the property of the 400 response does not hold: the bodies [[]]
    and [null] are JSON, have no [query] field, and are answered with
    status 500, because [get] is looked up on a value that is no
    dictionary. *)
Lemma search_without_query_needs_object :
  query_field (PyList []) = None
  /\ query_field PyNone = None
  /\ search unreachable_agent {| request_json := Ret (PyList []) |} []
     = (Ret {| body := [("error", PyStr "'list' object has no attribute 'get'")];
               status := 500 |},
        [Raised (AttributeError "list" "get")])
  /\ search unreachable_agent {| request_json := Ret PyNone |} []
     = (Ret {| body := [("error", PyStr "'NoneType' object has no attribute 'get'")];
               status := 500 |},
        [Raised (AttributeError "NoneType" "get")])
  /\ ~ (forall (agent_run : pyval -> py string) (json : pyval) (h : history),
          query_field json = None \/ query_field json = Some (PyStr "") ->
          result (search agent_run {| request_json := Ret json |} h)
          = Ret no_query_response).
Proof.
  repeat split.
  intros H. specialize (H unreachable_agent (PyList []) [] (or_introl eq_refl)).
  discriminate.
Qed.

(** [search_catches] on a request whose run fails. *)
Lemma search_catches_witness :
  result (search unreachable_agent
            {| request_json := Ret (PyDict [("query", PyStr "What is 2+2?")]) |} [])
  = Ret {| body := [("error", PyStr "the model backend is unreachable")];
           status := 500 |}.
Proof.
  apply (proj2 (proj2 (search_catches unreachable_agent
                         {| request_json := Ret (PyDict [("query", PyStr "What is 2+2?")]) |}
                         []))
           [("query", PyStr "What is 2+2?")] (PyStr "What is 2+2?")
           (Exception "ModelUnavailable" "the model backend is unreachable"));
    reflexivity.
Defined.

Example search_body_not_an_object :
  search unreachable_agent {| request_json := Ret (PyList []) |} []
  = (Ret {| body := [("error", PyStr "'list' object has no attribute 'get'")];
            status := 500 |},
     [Raised (AttributeError "list" "get")]).
Proof. reflexivity. Qed.

(** ** The prompt template *)

(** C8.  Every label of the protocol ([Question:], [Thought:], [Action:],
    [Action Input:], [Observation:], [Final Answer:]) starts a line of the
    template, and the tools its [Action:] line allows are exactly the
    names of the registry, in order: Wikipedia, DuckDuckGo, BasicMath,
    ArXiv, PubMed. *)
Theorem prompt_protocol (W : world) :
  Forall (fun label =>
            exists line,
              In line (PyStr.lines (CUSTOM_PROMPT W))
              /\ PyStr.startswith label line = true)
         protocol_labels
  /\ action_values (CUSTOM_PROMPT W) = map name (tools W)
  /\ map name (tools W)
     = ["Wikipedia"; "DuckDuckGo"; "BasicMath"; "ArXiv"; "PubMed"].
Proof.
  split; [| split; reflexivity].
  apply Forall_forall. intros label Hl.
  assert (Hb : existsb (PyStr.startswith label) (PyStr.lines (CUSTOM_PROMPT W)) = true).
  { revert label Hl. apply Forall_forall.
    repeat constructor. }
  apply existsb_exists in Hb. exact Hb.
Qed.

(** ** The agent loop *)

Section LoopProperties.

Variable W : world.
Variable scan : string -> AgentLoop.parsed.
Variables build_prompt build_final_prompt : list AgentLoop.turn -> string -> string.
Variable malformed_observation : string.

Lemma quiet_invoke tool_name input : quiet (AgentLoop.invoke W tool_name input).
Proof.
  unfold AgentLoop.invoke, lookup_tool.
  destruct (List.find _ (tools W)) as [tool |] eqn:Hfind.
  - apply find_some in Hfind as [Hin _].
    exact (proj1 (Forall_forall _ _) (quiet_tools W) tool Hin input).
  - apply quiet_throw.
Qed.

Lemma complete_calls prompt h :
  model_calls (events (AgentLoop.complete W prompt h)) = 1.
Proof.
  unfold AgentLoop.complete, extern. destruct (llama W prompt h); reflexivity.
Qed.

(** The Model calls of a computation that starts with one completion. *)
Lemma after_complete {A} prompt (k : string -> py A) h bound :
  (forall raw h', model_calls (events (k raw h')) <= bound) ->
  model_calls (events (bind (AgentLoop.complete W prompt) k h)) <= 1 + bound.
Proof.
  intros Hk. pose proof (complete_calls prompt h) as Hc.
  destruct (AgentLoop.complete W prompt h) as [[raw | e] ev] eqn:E.
  - rewrite (bind_ret_run _ _ _ _ _ E). cbn [events snd] in *.
    rewrite model_calls_app, Hc. apply le_n_S, Hk.
  - rewrite (bind_raise_run _ _ _ _ _ E). cbn [events snd] in *. lia.
Qed.

Lemma iterate_model_calls remaining :
  forall question st h,
    model_calls
      (events (AgentLoop.iterate W scan build_prompt build_final_prompt
                 malformed_observation remaining question st h))
    <= remaining + 1.
Proof.
  induction remaining as [| remaining IH]; intros question st h;
    cbn [AgentLoop.iterate].
  - apply (after_complete _ _ _ 0). intros raw h'.
    destruct (AgentLoop.OutputParser W scan raw); cbn; lia.
  - replace (S remaining + 1) with (1 + (remaining + 1)) by lia.
    apply after_complete. intros raw h'.
    destruct (AgentLoop.OutputParser W scan raw) as [text | tool input | raw'].
    + cbn. lia.
    + pose proof (quiet_invoke tool input h') as Hq.
      destruct (AgentLoop.invoke W tool input h') as [[obs | e] ev] eqn:E.
      * rewrite (bind_ret_run _ _ _ _ _ E). cbn [events snd] in *.
        rewrite model_calls_app, Hq. apply IH.
      * rewrite (bind_raise_run _ _ _ _ _ E). cbn [events snd] in *. lia.
    + apply IH.
Qed.

(** C2.  The budget the program asks for is 3 iterations, and a run of
    the loop, which is defined by recursion on what is left of the budget
    and so comes to an end on every question, makes at most
    [max_iterations + 1] Model calls; the same holds under any other
    budget.  The one call beyond the budget is the forced last call of
    the early-stopping method [generate]. *)
Theorem run_model_calls (question : string) (h : history) :
  AgentLoop.max_iterations = 3
  /\ AgentLoop.early_stopping_method = "generate"
  /\ model_calls
       (events (AgentLoop.run W scan build_prompt build_final_prompt
                  malformed_observation question h))
     <= AgentLoop.max_iterations + 1
  /\ forall budget,
       model_calls
         (events (AgentLoop.run_with W scan build_prompt build_final_prompt
                    malformed_observation budget question h))
       <= budget + 1.
Proof.
  split; [reflexivity | split; [reflexivity | split]].
  - apply (iterate_model_calls AgentLoop.max_iterations).
  - intros budget. apply (iterate_model_calls budget).
Qed.

End LoopProperties.

(** The scenarios of the specification, run. *)

Example run_two_plus_two :
  let r := AgentLoop.run scripted two_line_scan plain_prompt plain_prompt
             "Invalid or incomplete response" "What is 2+2?" [] in
  option_map
    (fun a => (AgentLoop.answer_text a,
               AgentLoop.run_status_of (AgentLoop.final_state a),
               AgentLoop.iterations_used (AgentLoop.final_state a)))
    (match result r with Ret a => Some a | Raise _ => None end)
  = Some ("4", AgentLoop.Succeeded, 1)
  /\ model_calls (events r) = 2.
Proof. split; reflexivity. Qed.

Example run_confused :
  let r := AgentLoop.run confused two_line_scan plain_prompt plain_prompt
             "Invalid or incomplete response" "xyzzy" [] in
  option_map
    (fun a => (AgentLoop.answer_text a,
               AgentLoop.run_status_of (AgentLoop.final_state a),
               AgentLoop.iterations_used (AgentLoop.final_state a)))
    (match result r with Ret a => Some a | Raise _ => None end)
  = Some ("xyzzy", AgentLoop.Stopped, 3)
  /\ model_calls (events r) = 4.
Proof. split; reflexivity. Qed.

Example run_offline :
  AgentLoop.run offline two_line_scan plain_prompt plain_prompt
    "Invalid or incomplete response" "What is 2+2?" []
  = (Raise ConnectionError,
     [Called (LlmComplete "What is 2+2?"); Raised ConnectionError]).
Proof. reflexivity. Qed.

(** * Further properties of the program *)

(** ** Calls of a computation *)

Lemma calls_app evs evs' : calls (evs ++ evs') = (calls evs ++ calls evs')%list.
Proof.
  induction evs as [| [c | e] evs IH]; cbn; [reflexivity | |]; rewrite IH; reflexivity.
Qed.

Lemma callfree_ret {A} (a : A) : callfree (ret a).
Proof. intros h. reflexivity. Qed.

Lemma callfree_throw {A} (e : exn) : callfree (@throw A e).
Proof. intros h. reflexivity. Qed.

Lemma callfree_lift {A} (o : outcome A) : callfree (lift o).
Proof. destruct o; [apply callfree_ret | apply callfree_throw]. Qed.

Lemma callfree_bind {A B} (m : py A) (k : A -> py B) :
  callfree m -> (forall a, callfree (k a)) -> callfree (bind m k).
Proof.
  intros Hm Hk h. specialize (Hm h).
  destruct (m h) as [[a | e] ev] eqn:E.
  - rewrite (bind_ret_run _ _ _ _ _ E). cbn [events snd] in *.
    rewrite calls_app, Hm. apply Hk.
  - rewrite (bind_raise_run _ _ _ _ _ E). exact Hm.
Qed.

Lemma callfree_for_each {A B} (body : B -> A -> py B) xs :
  (forall acc x, callfree (body acc x)) -> forall acc, callfree (for_each body xs acc).
Proof.
  intros Hb. induction xs as [| x xs IH]; intros acc; cbn [for_each].
  - apply callfree_ret.
  - apply callfree_bind; [apply Hb | exact IH].
Qed.

(** The calls of a computation that starts by leaving the program once and
    stays inside afterwards. *)
Lemma calls_extern_then {A B} c (answer : history -> outcome A) (k : A -> py B) h :
  (forall a, callfree (k a)) ->
  calls (events (bind (extern c answer) k h)) = [c].
Proof.
  intros Hk. unfold bind, extern.
  destruct (answer h) as [a | e]; [| reflexivity].
  specialize (Hk a (h ++ [Called c])%list).
  destruct (k a (h ++ [Called c])%list) as [r ev]. cbn in *. rewrite Hk. reflexivity.
Qed.

(** A handler that only builds its answer adds no call. *)
Lemma calls_try_ret {A} (m : py A) (f : exn -> A) h :
  calls (events (try_except m (fun e => ret (f e)) h)) = calls (events (m h)).
Proof.
  destruct (m h) as [[a | e] ev] eqn:E.
  - rewrite (try_ret_run _ _ _ _ _ E). reflexivity.
  - rewrite (try_raise_run _ _ _ _ _ E). cbn. rewrite app_nil_r. reflexivity.
Qed.

(** The calls of a computation that starts by leaving the program once. *)
Lemma calls_extern_cases {A B} c (answer : history -> outcome A) (k : A -> py B) h :
  calls (events (bind (extern c answer) k h)) = [c]
  \/ exists a h',
       calls (events (bind (extern c answer) k h)) = c :: calls (events (k a h')).
Proof.
  unfold bind, extern. destruct (answer h) as [a | e]; [| left; reflexivity].
  right. exists a, (h ++ [Called c])%list.
  destruct (k a (h ++ [Called c])%list) as [r ev]. reflexivity.
Qed.

Create HintDb callfree_db.
#[local] Hint Resolve callfree_ret callfree_throw callfree_lift : callfree_db.

Ltac walk_callfree :=
  repeat first
    [ progress auto with callfree_db nocore
    | apply @callfree_bind; [| intros ?]
    | apply @callfree_for_each; intros ? ?
    | walk_step ].

Section InterpreterCalls.

Variable W : world.

Lemma callfree_py_str v : callfree (py_str W v).
Proof. unfold py_str. walk_callfree. Qed.

Lemma callfree_py_slice_to n v : callfree (py_slice_to n v).
Proof. unfold py_slice_to. walk_callfree. Qed.

Lemma callfree_py_add_str v s : callfree (py_add_str v s).
Proof. unfold py_add_str. walk_callfree. Qed.

Lemma callfree_py_get v key default : callfree (py_get v key default).
Proof. unfold py_get. walk_callfree. Qed.

Lemma callfree_py_getitem v key : callfree (py_getitem v key).
Proof. unfold py_getitem. walk_callfree. Qed.

Lemma callfree_py_iter v : callfree (py_iter v).
Proof. unfold py_iter. walk_callfree. Qed.

Lemma callfree_raise_for_status r : callfree (raise_for_status r).
Proof. unfold raise_for_status. walk_callfree. Qed.

Lemma callfree_find_text tag entry : callfree (find_text tag entry).
Proof. unfold find_text. walk_callfree. Qed.

Hint Resolve callfree_py_str callfree_py_slice_to callfree_py_add_str
  callfree_py_get callfree_py_getitem callfree_py_iter
  callfree_raise_for_status callfree_find_text : callfree_db.

Lemma callfree_str_items v : callfree (str_items v).
Proof. unfold str_items. walk_callfree. Qed.

Lemma callfree_format_result acc r : callfree (format_result W acc r).
Proof. unfold format_result. walk_callfree. Qed.

Lemma callfree_format_entry acc entry : callfree (format_entry acc entry).
Proof. unfold format_entry. walk_callfree. Qed.

Lemma callfree_format_paper data acc id : callfree (format_paper W data acc id).
Proof. unfold format_paper. walk_callfree. Qed.

End InterpreterCalls.


(** ** What each tool calls *)

Section ToolCalls.

Variable W : world.

Hint Resolve callfree_py_str callfree_py_slice_to callfree_py_add_str
  callfree_py_get callfree_py_getitem callfree_py_iter
  callfree_raise_for_status callfree_find_text callfree_str_items
  callfree_format_result callfree_format_entry callfree_format_paper
  : callfree_db.

(** X1.  Whatever the query and whatever comes back, one invocation of
    [safe_duckduckgo_search] leaves the program exactly once: a single
    DDGS text search, made on the cleaned query (quotes stripped at the
    ends, plus signs turned into spaces). *)
Theorem duckduckgo_one_search (query : string) (h : history) :
  calls (events (safe_duckduckgo_search W query h)) = [DdgsText (clean_query query)].
Proof.
  unfold safe_duckduckgo_search. rewrite calls_try_ret. cbv zeta.
  apply calls_extern_then. intros results. walk_callfree.
Qed.

(** X2.  [safe_math_eval] calls [eval] exactly when the expression passes
    the whitelist, then exactly once and on the expression unchanged; the
    empty expression passes ([all] of nothing is true) and is evaluated. *)
Theorem safe_math_eval_one_eval (expression : string) (h : history) :
  calls (events (safe_math_eval W expression h))
  = (if all_allowed expression then [BuiltinEval expression] else [])
  /\ all_allowed "" = true.
Proof.
  split; [| reflexivity].
  unfold safe_math_eval. rewrite calls_try_ret.
  destruct (all_allowed expression); cbn [negb].
  - apply calls_extern_then. intros v. walk_callfree.
  - reflexivity.
Qed.

(** X3.  On a query that is not empty [search_arxiv] makes exactly one
    HTTP request, to the arXiv query URL with the query put in as it is
    (nothing is escaped), and no request at all on the empty query. *)
Theorem search_arxiv_one_request (query : string) (h : history) :
  calls (events (search_arxiv W query h))
  = (if String.eqb query "" then []
     else [RequestsGet ("http://export.arxiv.org/api/query?search_query=all:"
                        ++ query ++ "&start=0&max_results=3")]).
Proof.
  unfold search_arxiv. cbn [truthy]. destruct (String.eqb query ""); cbn [negb].
  - reflexivity.
  - rewrite calls_try_ret. unfold arxiv_fetch. cbv zeta.
    apply calls_extern_then. intros response. walk_callfree.
Qed.

End ToolCalls.

(** ** The Wikipedia tool *)

Section WikipediaProperties.

Variable W : world.

Lemma summary_of_page_calls title h :
  page_calls (calls (events (summary_of_page W title h))).
Proof.
  unfold summary_of_page, bind, extern.
  destruct (wikipedia_page W title h) as [p | e]; cbn.
  - destruct (page_summary W p (h ++ [Called (WikipediaPage title)])%list);
      right; right; exists title, p; reflexivity.
  - right; left. exists title. reflexivity.
Qed.

Lemma wikipedia_lookup_calls q h :
  exists a,
    calls (events (wikipedia_lookup W q h)) = WikipediaSearch q :: a /\ page_calls a.
Proof.
  unfold wikipedia_lookup.
  destruct (calls_extern_cases (WikipediaSearch q) (wikipedia_search W q)
              (fun search_results =>
                 match search_results with
                 | [] => ret (no_articles q)
                 | page_title :: _ => summary_of_page W page_title
                 end) h) as [Hc | (results & h' & Hc)];
    unfold no_articles in Hc; rewrite Hc.
  - exists []. split; [reflexivity | left; reflexivity].
  - destruct results as [| title others].
    + exists []. split; [reflexivity | left; reflexivity].
    + eexists. split; [reflexivity | apply summary_of_page_calls].
Qed.

(** X5.  One invocation of [safe_wikipedia_search] makes one search, on the
    cleaned query, and after it loads at most two pages with their
    summaries (the first hit, and the first option of a disambiguation);
    it calls nothing else. *)
Theorem safe_wikipedia_search_calls (query : string) (h : history) :
  exists first_hit first_option,
    calls (events (safe_wikipedia_search W query h))
    = (WikipediaSearch (clean_query query) :: first_hit ++ first_option)%list
    /\ page_calls first_hit /\ page_calls first_option.
Proof.
  unfold safe_wikipedia_search. cbv zeta.
  destruct (wikipedia_lookup_calls (clean_query query) h) as (a & Ha & Hpa).
  destruct (wikipedia_lookup W (clean_query query) h) as [[s | e] ev] eqn:E.
  - rewrite (try_ret_run _ _ _ _ _ E). cbn [events snd] in *.
    exists a, []. rewrite app_nil_r. repeat split; [exact Ha | exact Hpa | left; reflexivity].
  - rewrite (try_raise_run _ _ _ _ _ E). cbn [events snd] in *.
    rewrite calls_app, Ha. exists a. eexists. split; [reflexivity | split; [exact Hpa |]].
    destruct e as [m options | m | c m]; try (left; reflexivity).
    rewrite calls_try_ret. destruct options as [| first others].
    + left. reflexivity.
    + apply summary_of_page_calls.
Qed.

(** X6.  When the search finds nothing, [safe_wikipedia_search] says so,
    naming the cleaned query, and loads no page. *)
Theorem safe_wikipedia_search_no_results (query : string) (h : history) :
  wikipedia_search W (clean_query query) h = Ret [] ->
  safe_wikipedia_search W query h
  = (Ret ("No Wikipedia articles found for '" ++ clean_query query ++ "'"),
     [Called (WikipediaSearch (clean_query query))]).
Proof.
  intros Hs. unfold safe_wikipedia_search, try_except, wikipedia_lookup, bind, extern.
  cbv zeta. rewrite Hs. reflexivity.
Qed.

Lemma wikipedia_lookup_run q h :
  (wikipedia_search W q h = Ret []
   /\ result (wikipedia_lookup W q h) = Ret (no_articles q))
  \/ (exists title others p summary,
         wikipedia_search W q h = Ret (title :: others)
         /\ wikipedia_page W title (h ++ [Called (WikipediaSearch q)])%list = Ret p
         /\ page_summary W p
              (h ++ [Called (WikipediaSearch q); Called (WikipediaPage title)])%list
            = Ret summary
         /\ result (wikipedia_lookup W q h) = Ret (PyStr.slice_to 500 summary))
  \/ exists e ev, wikipedia_lookup W q h = (Raise e, ev).
Proof.
  unfold wikipedia_lookup, summary_of_page, bind, extern.
  destruct (wikipedia_search W q h) as [[| title others] | e] eqn:Hs.
  - left. split; reflexivity.
  - destruct (wikipedia_page W title (h ++ [Called (WikipediaSearch q)])%list)
      as [p | e] eqn:Hp.
    + replace ((h ++ [Called (WikipediaSearch q)]) ++ [Called (WikipediaPage title)])%list
        with (h ++ [Called (WikipediaSearch q); Called (WikipediaPage title)])%list
        by (rewrite <- app_assoc; reflexivity).
      destruct (page_summary W p _) as [summary | e] eqn:Hsum.
      * right; left. exists title, others, p, summary.
        repeat split; first [assumption | reflexivity].
      * right; right. eexists _, _. reflexivity.
    + right; right. eexists _, _. reflexivity.
  - right; right. eexists _, _. reflexivity.
Qed.

Lemma summary_of_page_cases title h :
  (exists p summary,
      wikipedia_page W title h = Ret p
      /\ page_summary W p (h ++ [Called (WikipediaPage title)])%list = Ret summary
      /\ result (summary_of_page W title h) = Ret (PyStr.slice_to 500 summary))
  \/ exists e, result (summary_of_page W title h) = Raise e.
Proof.
  unfold summary_of_page, bind, extern.
  destruct (wikipedia_page W title h) as [p | e] eqn:Hp; [| right; exists e; reflexivity].
  destruct (page_summary W p (h ++ [Called (WikipediaPage title)])%list)
    as [summary | e] eqn:Hsum; [| right; exists e; reflexivity].
  left. exists p, summary. repeat split; first [assumption | reflexivity].
Qed.

(** X7.  Every answer of [safe_wikipedia_search] is of one of five kinds,
    each for its own reason: the first 500 characters of the summary with
    which the lookup succeeded (directly or through the first option of a
    disambiguation); the message that no articles were found, when the
    search returned no title; the message that several articles were
    found, when the lookup ended in a [DisambiguationError]; the message
    that no article was found, when it ended in a [PageError]; the message
    that an error occurred, with the text of the exception in which it
    ended otherwise.  The three messages of the first kind name the cleaned
    query. *)
Theorem safe_wikipedia_search_answers (query : string) (h : history) :
  let q := clean_query query in
  exists s,
    result (safe_wikipedia_search W query h) = Ret s
    /\ ((exists summary,
            lookup_succeeds W query h summary /\ s = PyStr.slice_to 500 summary)
        \/ (wikipedia_search W q h = Ret []
            /\ s = "No Wikipedia articles found for '" ++ q ++ "'")
        \/ (exists m options ev,
               wikipedia_lookup W q h = (Raise (DisambiguationError m options), ev)
               /\ s = "Multiple Wikipedia articles found for '" ++ q
                      ++ "'. Please be more specific.")
        \/ (exists m ev,
               wikipedia_lookup W q h = (Raise (PageError m), ev)
               /\ s = "No Wikipedia article found for '" ++ q ++ "'")
        \/ (exists c m ev,
               wikipedia_lookup W q h = (Raise (Exception c m), ev)
               /\ s = "An error occurred while searching Wikipedia: " ++ m)).
Proof.
  intros q. unfold safe_wikipedia_search. cbv zeta. fold q.
  destruct (wikipedia_lookup_run q h)
    as [[Hs Hr] | [(title & others & p & summary & Hs & Hp & Hsum & Hr) | (e & ev & E)]].
  - destruct (wikipedia_lookup W q h) as [r ev] eqn:E. cbn [result fst] in Hr. subst r.
    rewrite (try_ret_run _ _ _ _ _ E). eexists. split; [reflexivity |].
    right; left. split; [exact Hs | reflexivity].
  - destruct (wikipedia_lookup W q h) as [r ev] eqn:E. cbn [result fst] in Hr. subst r.
    rewrite (try_ret_run _ _ _ _ _ E). eexists. split; [reflexivity |].
    left. exists summary. split; [| reflexivity].
    exact (found_directly W query h title others p summary Hs Hp Hsum).
  - rewrite (try_raise_run _ _ _ _ _ E). cbn [result fst].
    destruct e as [m options | m | c m].
    + destruct options as [| first others].
      * eexists. split; [reflexivity |]. right; right; left.
        exists m, [], ev. split; [exact E | reflexivity].
      * destruct (summary_of_page_cases first (h ++ ev)%list)
          as [(p & summary & Hp & Hsum & Hr) | [e He]];
          destruct (summary_of_page W first (h ++ ev)%list) as [r ev'] eqn:E';
          cbn [result fst] in *; subst r.
        -- rewrite (try_ret_run _ _ _ _ _ E'). eexists. split; [reflexivity |].
           left. exists summary. split; [| reflexivity].
           rewrite <- app_assoc in Hsum.
           exact (found_by_first_option W query h m first others ev p summary
                    E Hp Hsum).
        -- rewrite (try_raise_run _ _ _ _ _ E'). eexists. split; [reflexivity |].
           right; right; left. exists m, (first :: others), ev.
           split; [exact E | reflexivity].
    + eexists. split; [reflexivity |]. right; right; right; left.
      exists m, ev. split; [exact E | reflexivity].
    + eexists. split; [reflexivity |]. right; right; right; right.
      exists c, m, ev. split; [exact E | reflexivity].
Qed.

(** X8.  How [safe_wikipedia_search] answers a lookup that fails: a
    [PageError] gives the message that no article was found; a
    [DisambiguationError] whose list of options is empty, or whose first
    option cannot be loaded for whatever reason, gives the message that
    several articles were found; any other exception gives the message that
    an error occurred, followed by the text of the exception. *)
Theorem safe_wikipedia_search_failures (query : string) (h : history) :
  let q := clean_query query in
  (forall m ev,
      wikipedia_lookup W q h = (Raise (PageError m), ev) ->
      result (safe_wikipedia_search W query h)
      = Ret ("No Wikipedia article found for '" ++ q ++ "'"))
  /\ (forall m options ev,
         wikipedia_lookup W q h = (Raise (DisambiguationError m options), ev) ->
         (options = []
          \/ exists first others e,
               options = first :: others
               /\ result (summary_of_page W first (h ++ ev)%list) = Raise e) ->
         result (safe_wikipedia_search W query h)
         = Ret ("Multiple Wikipedia articles found for '" ++ q
                ++ "'. Please be more specific."))
  /\ (forall c m ev,
         wikipedia_lookup W q h = (Raise (Exception c m), ev) ->
         result (safe_wikipedia_search W query h)
         = Ret ("An error occurred while searching Wikipedia: " ++ m)).
Proof.
  intros q. unfold safe_wikipedia_search. cbv zeta. fold q.
  split; [| split].
  - intros m ev E. rewrite (try_raise_run _ _ _ _ _ E). reflexivity.
  - intros m options ev E Hopt. rewrite (try_raise_run _ _ _ _ _ E). cbn [result fst].
    destruct Hopt as [-> | (first & others & e & -> & He)]; [reflexivity |].
    destruct (summary_of_page W first (h ++ ev)%list) as [r ev'] eqn:E'.
    cbn [result fst] in He. subst r.
    rewrite (try_raise_run _ _ _ _ _ E'). reflexivity.
  - intros c m ev E. rewrite (try_raise_run _ _ _ _ _ E). reflexivity.
Qed.

End WikipediaProperties.

(** ** Loops *)

(** A loop whose rounds all return without an event is a [map]. *)
Lemma for_each_pure {A B C} (body : list C -> A -> py (list C)) (f : B -> C)
      (R : A -> B -> Prop) xs ys :
  (forall acc x y h, R x y -> body acc x h = (Ret (append acc (f y)), [])) ->
  Forall2 R xs ys ->
  forall acc h, for_each body xs acc h = (Ret (acc ++ map f ys)%list, []).
Proof.
  intros Hbody HR. induction HR as [| x y xs ys Hxy _ IH]; intros acc h; cbn [for_each map].
  - rewrite app_nil_r. reflexivity.
  - rewrite (bind_ret_run _ _ _ _ _ (Hbody acc x y h Hxy)).
    rewrite IH. unfold append. rewrite <- app_assoc. reflexivity.
Qed.

(** A loop with a round that raises whatever was gathered before it
    raises. *)
Lemma for_each_raises {A B} (body : B -> A -> py B) x xs :
  (forall acc h, exists e, result (body acc x h) = Raise e) ->
  In x xs ->
  forall acc h, exists e, result (for_each body xs acc h) = Raise e.
Proof.
  intros Hx. induction xs as [| x0 xs IH]; intros Hin acc h; [destruct Hin |].
  cbn [for_each].
  destruct (body acc x0 h) as [[acc' | e] ev] eqn:E.
  - rewrite (bind_ret_run _ _ _ _ _ E). cbn [result fst].
    destruct Hin as [-> | Hin].
    + destruct (Hx acc h) as [e He]. rewrite E in He. discriminate.
    + apply (IH Hin).
  - rewrite (bind_raise_run _ _ _ _ _ E). exists e. reflexivity.
Qed.

(** ** The DuckDuckGo tool *)

Section DuckDuckGoProperties.

Variable W : world.

Lemma format_result_titled acc r tb h :
  titled r tb ->
  format_result W acc r h
  = (Ret (append acc (duckduckgo_block (fst tb) (snd tb))), []).
Proof.
  intros (Ht & Hb & Hl). unfold format_result, bind. rewrite Ht, Hb, Hl.
  cbn [py_slice_to py_add_str py_str ret app]. reflexivity.
Qed.

(** X9.  When every result has a title and a body that are strings and no
    key [link], [safe_duckduckgo_search] returns one block per result, in
    order, separated by an empty line: the title, the first 200 characters
    of the body followed by three dots (also when the body is shorter), and
    the source [No link available], whatever other keys the result holds.
    With no result at all it returns [No results found on DuckDuckGo.]. *)
Theorem safe_duckduckgo_search_blocks
  (query : string) (h : history) (results : list dict) (items : list (string * string)) :
  ddgs_text W (clean_query query) h = Ret results ->
  Forall2 titled results items ->
  result (safe_duckduckgo_search W query h)
  = Ret (match items with
         | [] => "No results found on DuckDuckGo."
         | _ => PyStr.join (PyStr.nl ++ PyStr.nl)
                  (map (fun tb => duckduckgo_block (fst tb) (snd tb)) items)
         end).
Proof.
  intros Hs HR. unfold safe_duckduckgo_search. cbv zeta.
  erewrite try_ret_run; [reflexivity |].
  erewrite bind_ret_run by (unfold extern; rewrite Hs; reflexivity).
  destruct HR as [| r tb results items Hr HR]; [reflexivity |].
  erewrite bind_ret_run.
  2:{ apply (for_each_pure (format_result W)
               (fun tb => duckduckgo_block (fst tb) (snd tb)) titled).
      - intros acc x y h' Hxy. apply format_result_titled. exact Hxy.
      - constructor; eassumption. }
  reflexivity.
Qed.

(** X10.  One result without a title spoils the whole search:
    [safe_duckduckgo_search] then returns no result at all, only the
    message [An error occurred while searching DuckDuckGo: ] with the text
    of the first exception raised in the loop. *)
Theorem safe_duckduckgo_search_untitled
  (query : string) (h : history) (results : list dict) (r : dict) :
  ddgs_text W (clean_query query) h = Ret results ->
  In r results ->
  lookup "title" r = None ->
  exists e,
    result (safe_duckduckgo_search W query h)
    = Ret ("An error occurred while searching DuckDuckGo: " ++ str_exn e).
Proof.
  intros Hs Hin Ht. unfold safe_duckduckgo_search. cbv zeta.
  assert (Hraise : forall acc h', exists e, result (format_result W acc r h') = Raise e).
  { intros acc h'. unfold format_result. rewrite Ht.
    match goal with
    | |- context [bind ?m ?k] => destruct (m h') as [[b | e] ev] eqn:E
    end.
    - rewrite (bind_ret_run _ _ _ _ _ E). eexists. reflexivity.
    - rewrite (bind_raise_run _ _ _ _ _ E). exists e. reflexivity. }
  destruct results as [| r0 results]; [destruct Hin |].
  destruct (for_each_raises (format_result W) r (r0 :: results) Hraise Hin []
              (h ++ [Called (DdgsText (clean_query query))])%list) as [e He].
  exists e.
  match goal with
  | |- result (try_except ?m _ h) = _ =>
      assert (Hbody : result (m h) = Raise e)
  end.
  { erewrite bind_ret_run by (unfold extern; rewrite Hs; reflexivity).
    cbn [result fst].
    destruct (for_each (format_result W) (r0 :: results) []
                (h ++ [Called (DdgsText (clean_query query))])%list) as [o ev] eqn:E.
    cbn [result fst] in He. subst o.
    rewrite (bind_raise_run _ _ _ _ _ E). reflexivity. }
  match goal with
  | |- result (try_except ?m _ h) = _ => destruct (m h) as [o ev] eqn:E
  end.
  cbn [result fst] in Hbody. subst o.
  rewrite (try_raise_run _ _ _ _ _ E). reflexivity.
Qed.

End DuckDuckGoProperties.

(** ** The arXiv tool *)

Section ArxivProperties.

Variable W : world.

Lemma raise_for_status_ok r h :
  (status_code r < 400)%Z -> raise_for_status r h = (Ret tt, []).
Proof.
  intros Hs. unfold raise_for_status.
  replace (400 <=? status_code r)%Z with false by (symmetry; apply Z.leb_gt; lia).
  replace (500 <=? status_code r)%Z with false by (symmetry; apply Z.leb_gt; lia).
  reflexivity.
Qed.

Lemma format_entry_complete acc entry fields h :
  complete_entry entry fields ->
  format_entry acc entry h
  = (Ret (append acc (let '(title, link, summary) := fields in
                      arxiv_block title link summary)), []).
Proof.
  destruct fields as [[title link] summary]. unfold complete_entry, child_text.
  intros (Ht & Hl & Hs). unfold format_entry, find_text, bind.
  destruct (find (atom "title") entry) as [ct |]; [| discriminate].
  destruct (find (atom "summary") entry) as [cs |]; [| discriminate].
  destruct (find (atom "id") entry) as [cl |]; [| discriminate].
  cbn in Ht, Hl, Hs. injection Ht as ->. injection Hl as ->. injection Hs as Hs.
  cbn. rewrite Hs. reflexivity.
Qed.

Lemma format_entry_broken acc entry h :
  broken_entry entry -> exists e, result (format_entry acc entry h) = Raise e.
Proof.
  unfold broken_entry, child_text, format_entry, find_text, bind.
  intros Hb.
  destruct (find (atom "title") entry) as [ct |]; [| eexists; reflexivity].
  destruct (find (atom "summary") entry) as [cs |]; [| eexists; reflexivity].
  destruct (find (atom "id") entry) as [cl |]; [| eexists; reflexivity].
  cbn in Hb. destruct Hb as [Hb | [Hb | [Hb | Hb]]]; try discriminate.
  injection Hb as Hb. cbn. rewrite Hb. eexists. reflexivity.
Qed.

(** The fetch up to the parsed feed. *)
Lemma arxiv_fetch_parsed query h response root :
  requests_get W (arxiv_url query) h = Ret response ->
  (status_code response < 400)%Z ->
  ET_fromstring W (text response) = Ret root ->
  arxiv_fetch W query h
  = (let r := (for_each format_entry (findall (atom "entry") root) []
                 (h ++ [Called (RequestsGet (arxiv_url query))])%list) in
     match result r with
     | Ret results =>
         (Ret (match results with
               | [] => "No results found on arXiv."
               | _ => PyStr.join PyStr.nl results
               end),
          (Called (RequestsGet (arxiv_url query)) :: events r))
     | Raise e => (Raise e, Called (RequestsGet (arxiv_url query)) :: events r)
     end).
Proof.
  intros Hg Hs Hx. unfold arxiv_fetch. cbv zeta.
  unfold bind at 1. unfold extern. rewrite Hg.
  unfold bind at 1. rewrite (raise_for_status_ok _ _ Hs).
  unfold bind at 1. rewrite Hx. cbn [lift ret]. rewrite !app_nil_r. cbn [app].
  unfold bind.
  destruct (for_each format_entry (findall (atom "entry") root) [] _) as [[results | e] ev];
    cbn; rewrite ?app_nil_r; reflexivity.
Qed.

(** X11.  When the request succeeds (a status below 400), the response
    parses, and every [entry] of the feed has a [title], an [id] and a
    [summary] with a text, [search_arxiv] returns one block per entry, in
    document order, each ending in a line break and joined by one more: the
    title, the link, and the first 200 characters of the summary followed
    by three dots; a title or link without text is printed as [None].  A
    feed without entries gives [No results found on arXiv.]. *)
Theorem search_arxiv_blocks
  (query : string) (h : history) (response : response) (root : element)
  (items : list (option string * option string * string)) :
  query <> "" ->
  requests_get W (arxiv_url query) h = Ret response ->
  (status_code response < 400)%Z ->
  ET_fromstring W (text response) = Ret root ->
  Forall2 complete_entry (findall (atom "entry") root) items ->
  result (search_arxiv W query h)
  = Ret (match items with
         | [] => "No results found on arXiv."
         | _ => PyStr.join PyStr.nl
                  (map (fun '(title, link, summary) => arxiv_block title link summary)
                     items)
         end).
Proof.
  intros Hq Hg Hs Hx HR. unfold search_arxiv. cbn [truthy].
  destruct (String.eqb_spec query ""); [contradiction |]. cbn [negb].
  erewrite try_ret_run; [reflexivity |].
  rewrite (arxiv_fetch_parsed _ _ _ _ Hg Hs Hx). cbv zeta.
  rewrite (for_each_pure format_entry
             (fun '(title, link, summary) => arxiv_block title link summary)
             complete_entry _ _
             (fun acc x y h' Hxy => format_entry_complete acc x y h' Hxy) HR).
  cbn [result events fst snd app].
  destruct HR; reflexivity.
Qed.

(** X12.  One entry of the feed without a [title], an [id] or a [summary],
    or with a summary without text, spoils the whole search:
    [search_arxiv] then returns no entry at all, only [Error searching
    ArXiv: ] with the text of an exception. *)
Theorem search_arxiv_broken_entry
  (query : string) (h : history) (response : response) (root entry : element) :
  query <> "" ->
  requests_get W (arxiv_url query) h = Ret response ->
  (status_code response < 400)%Z ->
  ET_fromstring W (text response) = Ret root ->
  In entry (findall (atom "entry") root) ->
  broken_entry entry ->
  exists e,
    result (search_arxiv W query h) = Ret ("Error searching ArXiv: " ++ str_exn e).
Proof.
  intros Hq Hg Hs Hx Hin Hb. unfold search_arxiv. cbn [truthy].
  destruct (String.eqb_spec query ""); [contradiction |]. cbn [negb].
  destruct (for_each_raises format_entry entry _
              (fun acc h' => format_entry_broken acc entry h' Hb) Hin []
              (h ++ [Called (RequestsGet (arxiv_url query))])%list) as [e He].
  exists e.
  pose proof (arxiv_fetch_parsed _ _ _ _ Hg Hs Hx) as Hrun. cbv zeta in Hrun.
  rewrite He in Hrun.
  rewrite (try_raise_run _ _ _ _ _ Hrun). reflexivity.
Qed.

End ArxivProperties.


(** ** The PubMed tool *)

Section PubmedProperties.

Variable W : world.

Lemma str_items_strings ids h :
  str_items (PyList (map PyStr ids)) h = (Ret ids, []).
Proof.
  unfold str_items. unfold bind. cbn [py_iter ret]. rewrite app_nil_r.
  rewrite (for_each_pure _ (fun s : string => s) (fun item s => item = PyStr s)
             (map PyStr ids) ids).
  - rewrite map_id. reflexivity.
  - intros acc x y h' ->. reflexivity.
  - induction ids; constructor; [reflexivity | assumption].
Qed.

Lemma format_paper_item by_id d acc id item h :
  lookup "result" d = Some (PyDict by_id) ->
  paper_of by_id id item ->
  format_paper W (PyDict d) acc id h = (Ret (append acc (pubmed_block item)), []).
Proof.
  destruct item as [[id' title] abstract].
  intros Hr (-> & paper & Hp & Ht & Ha).
  unfold format_paper.
  unfold bind at 1. cbn [py_getitem]. rewrite Hr. cbn [ret].
  unfold bind at 1. cbn [py_getitem]. rewrite Hp. cbn [ret].
  unfold bind. cbn [py_get ret].
  destruct Ht as [Ht | [Ht ->]], Ha as [Ha | [Ha ->]]; rewrite Ht, Ha; reflexivity.
Qed.

(** The first half of the fetch, up to the identifiers. *)
Lemma pubmed_fetch_ids query h response d :
  requests_get W (esearch_url query) h = Ret response ->
  (status_code response < 400)%Z ->
  response_json W response = Ret (PyDict d) ->
  pubmed_fetch W query h
  = (let ids := match lookup "esearchresult" d with
                | Some esearchresult => py_get esearchresult "idlist" (PyList [])
                | None => py_get (PyDict []) "idlist" (PyList [])
                end in
     let h1 := (h ++ [Called (RequestsGet (esearch_url query))])%list in
     let r := bind ids
                (fun ids =>
                   if negb (truthy ids) then ret "No results found on PubMed."
                   else
                     ids <- str_items ids ;;
                     let url := esummary_url (PyStr.join "," ids) in
                     response <- extern (RequestsGet url) (requests_get W url) ;;
                     raise_for_status response ;;;
                     data <- lift (response_json W response) ;;
                     results <- for_each (format_paper W data) ids [] ;;
                     ret (PyStr.join PyStr.nl results)) h1 in
     (result r, Called (RequestsGet (esearch_url query)) :: events r)).
Proof.
  intros Hg Hs Hj. unfold pubmed_fetch. cbv zeta.
  unfold bind at 1. unfold extern at 1. rewrite Hg.
  unfold bind at 1. rewrite (raise_for_status_ok _ _ Hs).
  unfold bind at 1. rewrite Hj. cbn [lift ret]. rewrite !app_nil_r. cbn [app].
  unfold bind at 1. cbn [py_get ret]. rewrite !app_nil_r. cbn [app].
  destruct (lookup "esearchresult" d) as [esr |]; cbn [py_get lookup];
    match goal with
    | |- context [bind ?m ?k ?hh] => destruct (bind m k hh) as [r ev']
    end; reflexivity.
Qed.

(** X13.  When the esearch answer, a JSON object, names no identifiers (no
    [esearchresult], no [idlist] in it, or an [idlist] that is empty),
    [search_pubmed] returns [No results found on PubMed.] and makes no
    second request. *)
Theorem search_pubmed_no_ids
  (query : string) (h : history) (response : response) (d : dict) :
  query <> "" ->
  requests_get W (esearch_url query) h = Ret response ->
  (status_code response < 400)%Z ->
  response_json W response = Ret (PyDict d) ->
  lookup "esearchresult" d = None
  \/ (exists esearchresult,
         lookup "esearchresult" d = Some (PyDict esearchresult)
         /\ (lookup "idlist" esearchresult = None
             \/ lookup "idlist" esearchresult = Some (PyList []))) ->
  search_pubmed W query h
  = (Ret "No results found on PubMed.", [Called (RequestsGet (esearch_url query))]).
Proof.
  intros Hq Hg Hs Hj Hids. unfold search_pubmed. cbn [truthy].
  destruct (String.eqb_spec query ""); [contradiction |]. cbn [negb].
  apply try_ret_run. rewrite (pubmed_fetch_ids _ _ _ _ Hg Hs Hj). cbv zeta.
  destruct Hids as [-> | (esr & -> & [Hl | Hl])];
    unfold bind; cbn [py_get lookup ret]; rewrite ?Hl; reflexivity.
Qed.

(** X14.  When esearch names the identifiers [ids] (strings, at least one)
    and the esummary answer holds a paper for each of them, [search_pubmed]
    asks esummary once for all identifiers joined by commas and returns one
    block per identifier, in order: the title, the identifier, and the
    first 200 characters of the abstract followed by three dots; a missing
    title or abstract is replaced by [No title available] or [No abstract
    available]. *)
Theorem search_pubmed_blocks
  (query : string) (h : history) (response1 response2 : response)
  (d esearchresult summaries by_id : dict)
  (items : list (string * string * string)) :
  let ids := map (fun item => fst (fst item)) items in
  let h1 := (h ++ [Called (RequestsGet (esearch_url query))])%list in
  query <> "" ->
  items <> [] ->
  requests_get W (esearch_url query) h = Ret response1 ->
  (status_code response1 < 400)%Z ->
  response_json W response1 = Ret (PyDict d) ->
  lookup "esearchresult" d = Some (PyDict esearchresult) ->
  lookup "idlist" esearchresult = Some (PyList (map PyStr ids)) ->
  requests_get W (esummary_url (PyStr.join "," ids)) h1 = Ret response2 ->
  (status_code response2 < 400)%Z ->
  response_json W response2 = Ret (PyDict summaries) ->
  lookup "result" summaries = Some (PyDict by_id) ->
  Forall (fun item => paper_of by_id (fst (fst item)) item) items ->
  search_pubmed W query h
  = (Ret (PyStr.join PyStr.nl (map pubmed_block items)),
     [Called (RequestsGet (esearch_url query));
      Called (RequestsGet (esummary_url (PyStr.join "," ids)))]).
Proof.
  intros ids h1 Hq Hne Hg1 Hs1 Hj1 He Hi Hg2 Hs2 Hj2 Hr Hp.
  unfold search_pubmed. cbn [truthy].
  destruct (String.eqb_spec query ""); [contradiction |]. cbn [negb].
  apply try_ret_run. rewrite (pubmed_fetch_ids _ _ _ _ Hg1 Hs1 Hj1). cbv zeta.
  rewrite He. fold h1. cbn [py_get]. rewrite Hi.
  assert (Htruthy : truthy (PyList (map PyStr ids)) = true).
  { subst ids. destruct items; [contradiction | reflexivity]. }
  match goal with
  | |- context [bind ?m ?k h1] =>
      assert (Hrun : bind m k h1
                     = (Ret (PyStr.join PyStr.nl (map pubmed_block items)),
                        [Called (RequestsGet (esummary_url (PyStr.join "," ids)))]))
  end.
  { erewrite bind_ret_run by reflexivity. rewrite Htruthy. cbn [negb].
    erewrite bind_ret_run by apply str_items_strings.
    cbv zeta. rewrite !app_nil_r.
    erewrite bind_ret_run by (unfold extern; rewrite Hg2; reflexivity).
    erewrite bind_ret_run by (apply raise_for_status_ok; exact Hs2).
    erewrite bind_ret_run by (rewrite Hj2; reflexivity).
    erewrite bind_ret_run.
    2:{ apply (for_each_pure (format_paper W (PyDict summaries)) pubmed_block
                 (fun id item => paper_of by_id id item) ids items).
        - intros acc x y h' Hxy. exact (format_paper_item _ _ _ _ _ _ Hr Hxy).
        - subst ids. clear - Hp. induction Hp; constructor; assumption. }
    reflexivity. }
  rewrite Hrun. reflexivity.
Qed.

(** *** The requests of [search_pubmed] *)

Lemma raise_for_status_cases r h :
  (((status_code r < 400)%Z \/ (600 <= status_code r)%Z)
   /\ raise_for_status r h = (Ret tt, []))
  \/ (~ ((status_code r < 400)%Z \/ (600 <= status_code r)%Z)
      /\ exists e, raise_for_status r h = (Raise e, [Raised e])).
Proof.
  unfold raise_for_status.
  destruct (400 <=? status_code r)%Z eqn:H4, (status_code r <? 500)%Z eqn:H5,
    (500 <=? status_code r)%Z eqn:H5', (status_code r <? 600)%Z eqn:H6;
    cbn [andb];
    try (right; split; [lia | eexists; reflexivity]);
    left; (split; [lia | reflexivity]).
Qed.

Lemma all_strings_run items :
  forall acc h,
    match all_strings items with
    | Some strs =>
        for_each
          (fun acc item =>
             match item with
             | PyStr s => ret (append acc s)
             | _ => throw (TypeError ("sequence item "
                             ++ PyStr.of_Z (Z.of_nat (List.length acc))
                             ++ ": expected str instance, "
                             ++ type_name item ++ " found"))
             end) items acc h
        = (Ret (acc ++ strs)%list, [])
    | None =>
        exists e,
          for_each
            (fun acc item =>
               match item with
               | PyStr s => ret (append acc s)
               | _ => throw (TypeError ("sequence item "
                               ++ PyStr.of_Z (Z.of_nat (List.length acc))
                               ++ ": expected str instance, "
                               ++ type_name item ++ " found"))
               end) items acc h
          = (Raise e, [Raised e])
    end.
Proof.
  induction items as [| item items IH]; intros acc h; cbn [all_strings for_each].
  - rewrite app_nil_r. reflexivity.
  - destruct item; try (eexists; reflexivity).
    erewrite bind_ret_run by reflexivity. cbn [app events result fst snd].
    specialize (IH (append acc s) (h ++ [])%list).
    destruct (all_strings items) as [strs |]; cbn [option_map].
    + rewrite IH. unfold append. rewrite <- app_assoc. reflexivity.
    + destruct IH as [e IH]. rewrite IH. exists e. reflexivity.
Qed.

Lemma all_strings_map {A} (f : A -> string) (l : list A) :
  all_strings (map (fun x => PyStr (f x)) l) = Some (map f l).
Proof.
  induction l as [| x l IH]; cbn [map all_strings]; [reflexivity |].
  rewrite IH. reflexivity.
Qed.

Lemma str_items_run v h :
  match joined_strings v with
  | Some strs => str_items v h = (Ret strs, [])
  | None => exists e, str_items v h = (Raise e, [Raised e])
  end.
Proof.
  unfold str_items.
  destruct v as [| b | n | s | items | items | t s b]; cbn [joined_strings py_iter];
    try (eexists; reflexivity).
  - (* a str *)
    erewrite bind_ret_run by reflexivity. cbn [app events result fst snd].
    pose proof (all_strings_run (map PyStr (PyStr.chars s)) [] (h ++ [])%list) as H.
    pose proof (all_strings_map (fun c : string => c) (PyStr.chars s)) as Hall.
    rewrite map_id in Hall. change (map (fun c : string => PyStr c)) with (map PyStr) in Hall.
    rewrite Hall in H. rewrite H. reflexivity.
  - (* a list *)
    erewrite bind_ret_run by reflexivity. cbn [app events result fst snd].
    pose proof (all_strings_run items [] (h ++ [])%list) as H.
    destruct (all_strings items) as [strs |].
    + rewrite H. reflexivity.
    + destruct H as [e H]. rewrite H. exists e. reflexivity.
  - (* a dict *)
    erewrite bind_ret_run by reflexivity. cbn [app events result fst snd].
    pose proof (all_strings_run (map (fun kv => PyStr (fst kv)) items) []
                  (h ++ [])%list) as H.
    rewrite (all_strings_map (@fst string pyval) items) in H. rewrite H. reflexivity.
Qed.

(** What follows the identifiers (lines 110-126) calls esummary once, on
    all of them, exactly when they are true for Python and strings. *)
Lemma after_idlist_calls (idlist : pyval) h :
  calls (events
    ((if negb (truthy idlist) then ret "No results found on PubMed."
      else
        ids <- str_items idlist ;;
        let url := esummary_url (PyStr.join "," ids) in
        response <- extern (RequestsGet url) (requests_get W url) ;;
        raise_for_status response ;;;
        data <- lift (response_json W response) ;;
        results <- for_each (format_paper W data) ids [] ;;
        ret (PyStr.join PyStr.nl results)) h))
  = match (if truthy idlist then joined_strings idlist else None) with
    | Some ids => [RequestsGet (esummary_url (PyStr.join "," ids))]
    | None => []
    end.
Proof.
  destruct (truthy idlist); cbn [negb]; [| reflexivity].
  pose proof (str_items_run idlist h) as H.
  destruct (joined_strings idlist) as [ids |].
  - rewrite (bind_ret_run _ _ _ _ _ H). cbn [events snd app]. cbv zeta.
    apply calls_extern_then. intros response.
    repeat first [ apply callfree_format_paper
                 | apply callfree_raise_for_status
                 | apply callfree_lift
                 | apply callfree_ret
                 | apply callfree_for_each; intros ? ?
                 | apply callfree_bind; [| intros ?] ].
  - destruct H as [e H]. rewrite (bind_raise_run _ _ _ _ _ H). reflexivity.
Qed.

(** The requests [search_pubmed] makes on a query that is not empty. *)
Lemma search_pubmed_calls query h :
  query <> "" ->
  calls (events (search_pubmed W query h))
  = RequestsGet (esearch_url query)
    :: match requests_get W (esearch_url query) h with
       | Ret response =>
           if (status_code response <? 400)%Z || (600 <=? status_code response)%Z
           then match response_json W response with
                | Ret data =>
                    match idlist_of data with
                    | Some idlist =>
                        match (if truthy idlist then joined_strings idlist else None) with
                        | Some ids => [RequestsGet (esummary_url (PyStr.join "," ids))]
                        | None => []
                        end
                    | None => []
                    end
                | Raise _ => []
                end
           else []
       | Raise _ => []
       end.
Proof.
  intros Hq. unfold search_pubmed. cbn [truthy].
  destruct (String.eqb_spec query ""); [contradiction |]. cbn [negb].
  rewrite calls_try_ret. unfold pubmed_fetch. cbv zeta.
  destruct (requests_get W (esearch_url query) h) as [response | e] eqn:Hg.
  2:{ erewrite bind_raise_run by (unfold extern; rewrite Hg; reflexivity). reflexivity. }
  erewrite bind_ret_run by (unfold extern; rewrite Hg; reflexivity).
  cbn [events snd app calls]. f_equal.
  set (h1 := (h ++ [Called (RequestsGet (esearch_url query))])%list).
  destruct (raise_for_status_cases response h1) as [[Hs E] | [Hs [e E]]].
  2:{ rewrite (bind_raise_run _ _ _ _ _ E).
      replace ((status_code response <? 400)%Z || (600 <=? status_code response)%Z)
        with false by (symmetry; apply orb_false_iff; split;
                       [apply Z.ltb_ge | apply Z.leb_gt]; lia).
      reflexivity. }
  rewrite (bind_ret_run _ _ _ _ _ E). cbn [events snd app].
  replace ((status_code response <? 400)%Z || (600 <=? status_code response)%Z)
    with true by (symmetry; apply orb_true_iff; destruct Hs;
                  [left; apply Z.ltb_lt | right; apply Z.leb_le]; lia).
  destruct (response_json W response) as [data | e]; cbn [lift].
  2:{ erewrite bind_raise_run by reflexivity. reflexivity. }
  erewrite bind_ret_run by reflexivity. cbn [events snd app].
  destruct data as [| | | | | d |];
    try (erewrite bind_raise_run by reflexivity; reflexivity).
  erewrite bind_ret_run by reflexivity. cbn [events snd app idlist_of].
  destruct (lookup "esearchresult" d) as [[| | | | | esearchresult |] |];
    try (erewrite bind_raise_run by reflexivity; reflexivity);
    (erewrite bind_ret_run by reflexivity); cbn [events snd app];
    apply after_idlist_calls.
Qed.

Lemma joined_strings_nonempty idlist ids :
  truthy idlist = true -> joined_strings idlist = Some ids -> ids <> [].
Proof.
  destruct idlist as [| | | s | [| [] items] | [| kv d] |]; cbn; try discriminate.
  - destruct s; cbn; [discriminate | intros _ [= <-]; discriminate].
  - destruct (all_strings items); cbn; [intros _ [= <-] |]; discriminate.
  - intros _ [= <-]. discriminate.
Qed.

(** X4.  On a query that is not empty [search_pubmed] always makes the
    esearch request for the query, and a second request only when esearch
    named identifiers: then the list of identifiers is not empty, and the
    second request, the last one, is the single esummary request for all
    of them, joined by commas in their order.  When esearch names no
    identifiers (it fails, its status is an error, its answer is no JSON,
    or holds no list of strings that Python takes for true), the esearch
    request is the only one.  On the empty query no request is made. *)
Theorem search_pubmed_requests (query : string) (h : history) :
  (query = "" -> calls (events (search_pubmed W query h)) = [])
  /\ (query <> "" ->
      (forall ids,
          esearch_names W query h ids ->
          ids <> []
          /\ calls (events (search_pubmed W query h))
             = [RequestsGet (esearch_url query);
                RequestsGet (esummary_url (PyStr.join "," ids))])
      /\ ((forall ids, ~ esearch_names W query h ids) ->
          calls (events (search_pubmed W query h)) = [RequestsGet (esearch_url query)])).
Proof.
  split; [intros ->; reflexivity |].
  intros Hq. rewrite (search_pubmed_calls query h Hq). split.
  - intros ids (response & data & idlist & Hg & Hs & Hj & Hi & Ht & Hids).
    split; [exact (joined_strings_nonempty _ _ Ht Hids) |].
    rewrite Hg, Hj, Hi, Ht, Hids.
    replace ((status_code response <? 400)%Z || (600 <=? status_code response)%Z)
      with true by (symmetry; apply orb_true_iff; destruct Hs;
                    [left; apply Z.ltb_lt | right; apply Z.leb_le]; lia).
    reflexivity.
  - intros Hnone.
    destruct (requests_get W (esearch_url query) h) as [response |] eqn:Hg;
      [| reflexivity].
    destruct ((status_code response <? 400)%Z || (600 <=? status_code response)%Z)
      eqn:Hs; [| reflexivity].
    destruct (response_json W response) as [data |] eqn:Hj; [| reflexivity].
    destruct (idlist_of data) as [idlist |] eqn:Hi; [| reflexivity].
    destruct (truthy idlist) eqn:Ht; [| reflexivity].
    destruct (joined_strings idlist) as [ids |] eqn:Hids; [| reflexivity].
    destruct (Hnone ids). exists response, data, idlist.
    repeat split; try assumption.
    apply orb_true_iff in Hs as [Hs | Hs];
      [left; apply Z.ltb_lt | right; apply Z.leb_le]; exact Hs.
Qed.

End PubmedProperties.

(** ** The cleaning of a query (lines 25 and 48) *)

Section StringFacts.

Variable chars : string.
Variables old new : ascii.
Hypothesis old_kept : PyStr.mem old chars = false.
Hypothesis new_kept : PyStr.mem new chars = false.
Hypothesis old_new : Ascii.eqb new old = false.

Lemma mem_replaced c :
  PyStr.mem (if Ascii.eqb c old then new else c) chars = PyStr.mem c chars.
Proof.
  destruct (Ascii.eqb_spec c old) as [-> |]; [| reflexivity].
  rewrite old_kept, new_kept. reflexivity.
Qed.

Lemma lstrip_replace s :
  PyStr.lstrip chars (PyStr.replace old new s)
  = PyStr.replace old new (PyStr.lstrip chars s).
Proof.
  induction s as [| c s IH]; cbn [PyStr.replace PyStr.lstrip]; [reflexivity |].
  rewrite mem_replaced. destruct (PyStr.mem c chars); [exact IH | reflexivity].
Qed.

Lemma rstrip_replace s :
  PyStr.rstrip chars (PyStr.replace old new s)
  = PyStr.replace old new (PyStr.rstrip chars s).
Proof.
  induction s as [| c s IH]; cbn [PyStr.replace PyStr.rstrip]; [reflexivity |].
  rewrite IH, mem_replaced.
  destruct (PyStr.rstrip chars s) as [| d r]; cbn [PyStr.replace].
  - destruct (PyStr.mem c chars); reflexivity.
  - reflexivity.
Qed.

Lemma rstrip_rstrip s :
  PyStr.rstrip chars (PyStr.rstrip chars s) = PyStr.rstrip chars s.
Proof.
  induction s as [| c s IH]; cbn [PyStr.rstrip]; [reflexivity |].
  destruct (PyStr.rstrip chars s) as [| d r] eqn:E.
  - destruct (PyStr.mem c chars) eqn:Hc; cbn [PyStr.rstrip]; [reflexivity |].
    rewrite Hc. reflexivity.
  - cbn [PyStr.rstrip] in *. rewrite IH. reflexivity.
Qed.

Lemma lstrip_headless s : headless chars (PyStr.lstrip chars s).
Proof.
  induction s as [| c s IH]; cbn [PyStr.lstrip]; [exact I |].
  destruct (PyStr.mem c chars) eqn:Hc; [exact IH | exact Hc].
Qed.

Lemma rstrip_headless s : headless chars s -> headless chars (PyStr.rstrip chars s).
Proof.
  destruct s as [| c s]; cbn [PyStr.rstrip headless]; [trivial |].
  intros Hc. destruct (PyStr.rstrip chars s); [rewrite Hc |]; exact Hc.
Qed.

Lemma lstrip_of_headless s : headless chars s -> PyStr.lstrip chars s = s.
Proof.
  destruct s as [| c s]; cbn [PyStr.lstrip headless]; [reflexivity |].
  intros ->. reflexivity.
Qed.

Lemma strip_strip s :
  PyStr.strip chars (PyStr.strip chars s) = PyStr.strip chars s.
Proof.
  unfold PyStr.strip.
  rewrite (lstrip_of_headless _ (rstrip_headless _ (lstrip_headless s))).
  apply rstrip_rstrip.
Qed.

Lemma replace_replace s :
  PyStr.replace old new (PyStr.replace old new s) = PyStr.replace old new s.
Proof.
  induction s as [| c s IH]; cbn [PyStr.replace]; [reflexivity |].
  rewrite IH. destruct (Ascii.eqb_spec c old) as [-> | Hc].
  - rewrite old_new. reflexivity.
  - destruct (Ascii.eqb_spec c old); [contradiction | reflexivity].
Qed.

Lemma replace_removes s : PyStr.mem old (PyStr.replace old new s) = false.
Proof.
  induction s as [| c s IH]; cbn [PyStr.replace PyStr.mem]; [reflexivity |].
  rewrite IH, orb_false_r. destruct (Ascii.eqb_spec c old) as [-> | Hc].
  - rewrite Ascii.eqb_sym. exact old_new.
  - apply Ascii.eqb_neq. congruence.
Qed.

Lemma replace_length s :
  String.length (PyStr.replace old new s) = String.length s.
Proof. induction s; cbn; congruence. Qed.

Lemma lstrip_length s : String.length (PyStr.lstrip chars s) <= String.length s.
Proof.
  induction s as [| c s IH]; cbn [PyStr.lstrip]; [reflexivity |].
  destruct (PyStr.mem c chars); cbn [String.length]; lia.
Qed.

Lemma rstrip_length s : String.length (PyStr.rstrip chars s) <= String.length s.
Proof.
  induction s as [| c s IH]; cbn [PyStr.rstrip]; [reflexivity |].
  destruct (PyStr.rstrip chars s); [destruct (PyStr.mem c chars) |];
    cbn [String.length] in *; lia.
Qed.

End StringFacts.

(** X20.  The query the Wikipedia and DuckDuckGo tools search for is clean:
    it holds no plus sign, it has no quotation mark left to strip at either
    end, cleaning it again changes nothing, and it is never longer than the
    query that was given. *)
Theorem clean_query_is_clean (query : string) :
  PyStr.mem "+"%char (clean_query query) = false
  /\ PyStr.strip quotes (clean_query query) = clean_query query
  /\ clean_query (clean_query query) = clean_query query
  /\ String.length (clean_query query) <= String.length query.
Proof.
  assert (Hstrip : PyStr.strip quotes (clean_query query) = clean_query query).
  { unfold clean_query, PyStr.strip. fold quotes.
    rewrite (lstrip_replace quotes "+" " " eq_refl eq_refl).
    rewrite (rstrip_replace quotes "+" " " eq_refl eq_refl).
    f_equal. apply (strip_strip quotes). }
  split; [| split; [exact Hstrip | split]].
  - apply replace_removes. reflexivity.
  - unfold clean_query at 1. fold quotes. rewrite Hstrip.
    unfold clean_query. apply replace_replace. reflexivity.
  - unfold clean_query, PyStr.strip. rewrite replace_length.
    etransitivity; [apply rstrip_length | apply lstrip_length].
Qed.

(** ** The math tool on integer expressions *)

Lemma digit_allowed c : Arith.is_digit c = true -> PyStr.mem c allowed_chars = true.
Proof.
  unfold Arith.is_digit, allowed_chars. cbn [PyStr.mem]. intros H.
  repeat (apply orb_true_iff in H as [H | H]; [rewrite H, ?orb_true_r; reflexivity |]).
  discriminate.
Qed.

Lemma flush_some num rest ts :
  Arith.flush num rest = Some ts -> exists ts', rest = Some ts'.
Proof.
  destruct rest as [ts' |]; [exists ts'; reflexivity |].
  destruct num; discriminate.
Qed.

Lemma flush_map_some num (f : list Arith.token -> list Arith.token) rest ts :
  Arith.flush num (option_map f rest) = Some ts -> exists ts', rest = Some ts'.
Proof.
  intros H. apply flush_some in H as [ts' H].
  destruct rest as [r |]; [exists r; reflexivity | discriminate].
Qed.

Lemma lex_allowed s : forall num ts, Arith.lex num s = Some ts -> all_allowed s = true.
Proof.
  unfold all_allowed.
  induction s as [| c s IH]; intros num ts H; [reflexivity |].
  cbn [Arith.lex] in H. cbn [PyStr.all].
  destruct (Arith.is_digit c) eqn:Hd.
  { rewrite (digit_allowed _ Hd). exact (IH _ _ H). }
  destruct (Ascii.eqb_spec c " ") as [-> |].
  { apply flush_some in H as [ts' H]. rewrite (IH _ _ H). reflexivity. }
  destruct (Ascii.eqb_spec c "+") as [-> |].
  { apply flush_map_some in H as [ts' H]. rewrite (IH _ _ H). reflexivity. }
  destruct (Ascii.eqb_spec c "-") as [-> |].
  { apply flush_map_some in H as [ts' H]. rewrite (IH _ _ H). reflexivity. }
  destruct (Ascii.eqb_spec c "(") as [-> |].
  { apply flush_map_some in H as [ts' H]. rewrite (IH _ _ H). reflexivity. }
  destruct (Ascii.eqb_spec c ")") as [-> |].
  { apply flush_map_some in H as [ts' H]. rewrite (IH _ _ H). reflexivity. }
  destruct (Ascii.eqb_spec c "*") as [-> |]; [| discriminate].
  assert (Hs : exists ts', Arith.lex [] s = Some ts').
  { destruct s as [| d s']; [apply flush_map_some in H; exact H |].
    destruct (Ascii.eqb_spec d "*") as [-> |]; [discriminate |].
    destruct d as [[] [] [] [] [] [] [] []];
      try (apply flush_map_some in H; exact H); contradiction. }
  destruct Hs as [ts' Hs]. rewrite (IH _ _ Hs). reflexivity.
Qed.

(** X21.  Every source on which [Arith.arith_eval] gives a value (at most
    100 characters made of decimal literals, [+], [-], [*], parentheses and
    spaces, that form an expression) passes the whitelist, and on it
    [safe_math_eval] calls [eval] once and returns the value in decimal,
    with a minus sign when it is negative; unless the value has more
    digits than the interpreter's limit for [str] of an [int] lets
    through (a limit of 640 digits at the least, when it is on), in which
    case it returns [Error evaluating mathematical expression: ] followed
    by the text of the [ValueError] of that limit. *)
Theorem safe_math_eval_integers
  (W : world) (expression : string) (n : Z) (h : history) :
  Arith.arith_eval expression = Some n ->
  (String.length expression <= 100)%nat
  /\ all_allowed expression = true
  /\ safe_math_eval W expression h
     = (if (int_max_str_digits W =? 0)%nat
           || (PyStr.digits n <=? Nat.max (int_max_str_digits W) 640)%nat
        then (Ret (PyStr.of_Z n), [Called (BuiltinEval expression)])
        else
          let e :=
            ValueError
              ("Exceeds the limit ("
               ++ PyStr.of_Z (Z.of_nat (Nat.max (int_max_str_digits W) 640))
               ++ " digits) for integer string conversion; "
               ++ "use sys.set_int_max_str_digits() to increase the limit") in
          (Ret ("Error evaluating mathematical expression: " ++ str_exn e),
           [Called (BuiltinEval expression); Raised e])).
Proof.
  intros He.
  assert (Hlen : (String.length expression <= 100)%nat
                 /\ all_allowed expression = true).
  { unfold Arith.arith_eval in He.
    destruct (String.length expression <=? Arith.max_source)%nat eqn:Hl; [| discriminate].
    destruct (Arith.lex [] expression) as [ts |] eqn:Hlex; [| discriminate].
    split; [apply Nat.leb_le; exact Hl | exact (lex_allowed _ _ _ Hlex)]. }
  destruct Hlen as [Hlen Hall]. split; [exact Hlen | split; [exact Hall |]].
  unfold safe_math_eval, try_except, bind, builtin_eval, extern.
  rewrite Hall, He. cbn [negb py_str]. unfold int_str_allowed.
  destruct ((int_max_str_digits W =? 0)%nat
            || (PyStr.digits n <=? Nat.max (int_max_str_digits W) 640)%nat);
    reflexivity.
Qed.


(** ** More about the /search endpoint *)

Section EndpointMore.

Variable agent_run : pyval -> py string.

(** X15.  A [query] that Python takes for false ([null], [false], 0, the
    empty string, an empty list or object) is treated like a missing one:
    status 400 with [No query provided], and [agent.run] is not invoked. *)
Theorem search_falsy_query (d : dict) (v : pyval) (h : history) :
  lookup "query" d = Some v ->
  truthy v = false ->
  search agent_run {| request_json := Ret (PyDict d) |} h
  = (Ret no_query_response, []).
Proof.
  intros Hq Hv. unfold search, try_except, search_try, bind, lift, py_get, ret.
  cbn [request_json]. rewrite Hq, Hv. reflexivity.
Qed.

(** X16.  For a body that is an object with a query Python takes for true,
    [search] invokes [agent.run] once, on the value of [query] as it is
    (no conversion, no check of its type), and when the run returns a text
    it answers with status 200 and that text under [result]; the events of
    the request are the invocation followed by those of the run. *)
Theorem search_success
  (d : dict) (v : pyval) (h : history) (text : string) (ev : list event) :
  lookup "query" d = Some v ->
  truthy v = true ->
  agent_run v (h ++ [Called (AgentRun v)])%list = (Ret text, ev) ->
  search agent_run {| request_json := Ret (PyDict d) |} h
  = (Ret {| body := [("result", PyStr text)]; status := 200 |},
     Called (AgentRun v) :: ev).
Proof.
  intros Hq Hv Hrun.
  unfold search, try_except, search_try, bind, lift, py_get, ret, traced.
  cbn [request_json]. rewrite Hq. cbn [app]. rewrite Hv. cbn [negb].
  rewrite !app_nil_r. rewrite Hrun. cbn. rewrite !app_nil_r. reflexivity.
Qed.

(** X17.  A request that cannot be read is answered with status 500 and
    never reaches the agent: when reading [request.json] raises, the
    message is the text of that exception; when the body is valid JSON but
    not an object, the message is that of the [AttributeError] for [get]
    on a value of its type.  The only event is the exception. *)
Theorem search_unreadable (req : request) (h : history) :
  (forall e,
      request_json req = Raise e ->
      search agent_run req h = (Ret (error_response e), [Raised e]))
  /\ (forall v,
         request_json req = Ret v ->
         (forall d, v <> PyDict d) ->
         search agent_run req h
         = (Ret {| body := [("error",
                             PyStr ("'" ++ type_name v
                                    ++ "' object has no attribute 'get'"))];
                   status := 500 |},
            [Raised (AttributeError (type_name v) "get")])).
Proof.
  split.
  - intros e He. unfold search, try_except, search_try, bind, lift. rewrite He.
    reflexivity.
  - intros v Hv Hnd. unfold search, try_except, search_try, bind, lift. rewrite Hv.
    destruct v; try reflexivity. destruct (Hnd items eq_refl).
Qed.

(** X18.  [search] always answers, and in one of three ways: status 200
    with the single field [result] holding a text, status 400 with the
    single field [error] holding [No query provided], or status 500 with
    the single field [error] holding the text of an exception. *)
Theorem search_answers (req : request) (h : history) :
  exists resp,
    result (search agent_run req h) = Ret resp
    /\ ((status resp = 200 /\ exists text, body resp = [("result", PyStr text)])
        \/ resp = no_query_response
        \/ exists e, resp = error_response e).
Proof.
  unfold search.
  destruct (search_try agent_run req h) as [[resp | e] ev] eqn:E.
  - rewrite (try_ret_run _ _ _ _ _ E). exists resp. split; [reflexivity |].
    revert E. unfold search_try, bind, lift, py_get, ret, traced.
    destruct (request_json req) as [[| | | | | d |] | e0]; cbn; try discriminate.
    destruct (truthy _); cbn [negb].
    + rewrite !app_nil_r.
      destruct (agent_run _ _) as [[text | e0] ev0]; cbn; [| discriminate].
      intros [= <- _]. left. split; [reflexivity | exists text; reflexivity].
    + intros [= <- _]. right; left. reflexivity.
  - rewrite (try_raise_run _ _ _ _ _ E). eexists. split; [reflexivity |].
    right; right. exists e. reflexivity.
Qed.

End EndpointMore.

(** ** More about the prompt template *)

Lemma in_by_eqb (l : string) (ls : list string) :
  existsb (String.eqb l) ls = true -> In l ls.
Proof.
  intros H. apply existsb_exists in H as (x & Hin & Hx).
  apply String.eqb_eq in Hx. subst x. exact Hin.
Qed.

(** X19.  The template carries the catalogue of the registry, one line
    [name: description] for every registered tool, and it ends with the
    line [Question: {input}], the placeholder left for the question (the
    doubled braces of the f-string), followed by the line [Thought:]; no
    earlier line holds a placeholder. *)
Theorem prompt_catalogue (W : world) :
  Forall (fun tool =>
            In (name tool ++ ": " ++ description tool) (PyStr.lines (CUSTOM_PROMPT W)))
         (tools W)
  /\ exists front,
       PyStr.lines (CUSTOM_PROMPT W) = (front ++ ["Question: {input}"; "Thought:"])%list
       /\ Forall (fun line => PyStr.mem "{"%char line = false) front.
Proof.
  split.
  - apply Forall_forall. intros tool Hin. apply in_by_eqb.
    assert (Hall : forallb
                     (fun tool =>
                        existsb (String.eqb (name tool ++ ": " ++ description tool))
                          (PyStr.lines (CUSTOM_PROMPT W)))
                     (tools W) = true) by (vm_compute; reflexivity).
    rewrite forallb_forall in Hall. exact (Hall tool Hin).
  - exists (removelast (removelast (PyStr.lines (CUSTOM_PROMPT W)))). split.
    + vm_compute. reflexivity.
    + apply Forall_forall. intros line Hin.
      assert (Hall : forallb (fun line => negb (PyStr.mem "{"%char line))
                       (removelast (removelast (PyStr.lines (CUSTOM_PROMPT W)))) = true)
        by (vm_compute; reflexivity).
      rewrite forallb_forall in Hall. apply negb_true_iff. exact (Hall line Hin).
Qed.

(** ** The further properties at work on the trial machine *)

Lemma safe_wikipedia_search_no_results_witness :
  safe_wikipedia_search lab "'nothing'" []
  = (Ret "No Wikipedia articles found for 'nothing'",
     [Called (WikipediaSearch "nothing")]).
Proof.
  exact (safe_wikipedia_search_no_results lab "'nothing'" [] eq_refl).
Defined.

(** [Java] is ambiguous and its first option is lost. *)
Lemma safe_wikipedia_search_failures_witness :
  result (safe_wikipedia_search lab "Java" [])
  = Ret "Multiple Wikipedia articles found for 'Java'. Please be more specific.".
Proof.
  apply (proj1 (proj2 (safe_wikipedia_search_failures lab "Java" []))
           "Java may refer to: " ["gone"; "Java (island)"]
           [Called (WikipediaSearch "Java"); Called (WikipediaPage "Java");
            Raised (DisambiguationError "Java may refer to: " ["gone"; "Java (island)"])]).
  - reflexivity.
  - right. exists "gone", ["Java (island)"],
      (PageError "Page id gone does not match any pages.").
    split; reflexivity.
Defined.

Lemma safe_duckduckgo_search_blocks_witness :
  result (safe_duckduckgo_search lab "rocq+prover" [])
  = Ret (PyStr.join (PyStr.nl ++ PyStr.nl)
           [duckduckgo_block "Rocq" long_summary;
            duckduckgo_block "Coq" "The former name."])
  /\ result (safe_duckduckgo_search lab "nothing" [])
     = Ret "No results found on DuckDuckGo.".
Proof.
  split.
  - apply (safe_duckduckgo_search_blocks lab "rocq+prover" []
             [[("title", PyStr "Rocq"); ("href", PyStr "https://rocq-prover.org");
               ("body", PyStr long_summary)];
              [("title", PyStr "Coq"); ("href", PyStr "https://coq.inria.fr");
               ("body", PyStr "The former name.")]]
             [("Rocq", long_summary); ("Coq", "The former name.")]).
    + reflexivity.
    + repeat constructor.
  - apply (safe_duckduckgo_search_blocks lab "nothing" [] [] []).
    + reflexivity.
    + constructor.
Defined.

Lemma safe_duckduckgo_search_untitled_witness :
  exists e,
    result (safe_duckduckgo_search lab "untitled" [])
    = Ret ("An error occurred while searching DuckDuckGo: " ++ str_exn e).
Proof.
  apply (safe_duckduckgo_search_untitled lab "untitled" []
           [[("title", PyStr "Rocq"); ("body", PyStr "A proof assistant.")];
            [("href", PyStr "https://example.org")]]
           [("href", PyStr "https://example.org")]).
  - reflexivity.
  - right. left. reflexivity.
  - reflexivity.
Defined.

Lemma search_arxiv_blocks_witness :
  result (search_arxiv lab "rocq" [])
  = Ret (arxiv_block None (Some "http://arxiv.org/abs/2") long_summary)
  /\ result (search_arxiv lab "nothing" []) = Ret "No results found on arXiv.".
Proof.
  split.
  - apply (search_arxiv_blocks lab "rocq" []
             (ok_response (arxiv_url "rocq") (arxiv_url "rocq"))
             (Element (atom "feed") None
                [Element (atom "title") (Some "arXiv") [];
                 Element (atom "entry") None
                   [Element (atom "id") (Some "http://arxiv.org/abs/2") [];
                    Element (atom "title") None [];
                    Element (atom "summary") (Some long_summary) []]])
             [(None, Some "http://arxiv.org/abs/2", long_summary)]).
    + discriminate.
    + reflexivity.
    + reflexivity.
    + reflexivity.
    + repeat constructor.
  - apply (search_arxiv_blocks lab "nothing" []
             (ok_response (arxiv_url "nothing") (arxiv_url "nothing"))
             (Element (atom "feed") None [Element (atom "title") (Some "arXiv") []])
             []).
    + discriminate.
    + reflexivity.
    + reflexivity.
    + reflexivity.
    + constructor.
Defined.

Lemma search_arxiv_broken_entry_witness :
  exists e,
    result (search_arxiv lab "broken" []) = Ret ("Error searching ArXiv: " ++ str_exn e).
Proof.
  apply (search_arxiv_broken_entry lab "broken" []
           (ok_response (arxiv_url "broken") (arxiv_url "broken"))
           (Element (atom "feed") None
              [Element (atom "entry") None
                 [Element (atom "title") (Some "No summary here") [];
                  Element (atom "id") (Some "http://arxiv.org/abs/1") []]])
           (Element (atom "entry") None
              [Element (atom "title") (Some "No summary here") [];
               Element (atom "id") (Some "http://arxiv.org/abs/1") []])).
  - discriminate.
  - reflexivity.
  - reflexivity.
  - reflexivity.
  - left. reflexivity.
  - right. left. reflexivity.
Defined.

Lemma search_pubmed_no_ids_witness :
  search_pubmed lab "nothing" []
  = (Ret "No results found on PubMed.", [Called (RequestsGet (esearch_url "nothing"))]).
Proof.
  apply (search_pubmed_no_ids lab "nothing" []
           (ok_response (esearch_url "nothing") (esearch_url "nothing"))
           [("esearchresult", PyDict [("idlist", PyList [])])]).
  - discriminate.
  - reflexivity.
  - reflexivity.
  - reflexivity.
  - right. exists [("idlist", PyList [])]. split; [reflexivity | right; reflexivity].
Defined.

Lemma search_pubmed_blocks_witness :
  search_pubmed lab "aspirin" []
  = (Ret (PyStr.join PyStr.nl
            [pubmed_block ("11", "Aspirin and the heart", long_summary);
             pubmed_block ("12", "No title available", "No abstract available")]),
     [Called (RequestsGet (esearch_url "aspirin"));
      Called (RequestsGet (esummary_url "11,12"))]).
Proof.
  apply (search_pubmed_blocks lab "aspirin" []
           (ok_response (esearch_url "aspirin") (esearch_url "aspirin"))
           (ok_response (esummary_url "11,12") (esummary_url "11,12"))
           [("esearchresult", PyDict [("idlist", PyList [PyStr "11"; PyStr "12"])])]
           [("idlist", PyList [PyStr "11"; PyStr "12"])]
           [("result",
             PyDict [("11", PyDict [("title", PyStr "Aspirin and the heart");
                                    ("abstract", PyStr long_summary)]);
                     ("12", PyDict [])])]
           [("11", PyDict [("title", PyStr "Aspirin and the heart");
                           ("abstract", PyStr long_summary)]);
            ("12", PyDict [])]
           [("11", "Aspirin and the heart", long_summary);
            ("12", "No title available", "No abstract available")]).
  - discriminate.
  - discriminate.
  - reflexivity.
  - reflexivity.
  - reflexivity.
  - reflexivity.
  - reflexivity.
  - reflexivity.
  - reflexivity.
  - reflexivity.
  - reflexivity.
  - constructor; [| constructor; [| constructor]].
    + split; [reflexivity |]. eexists. split; [reflexivity |].
      split; left; reflexivity.
    + split; [reflexivity |]. eexists. split; [reflexivity |].
      split; right; split; reflexivity.
Defined.

Lemma search_pubmed_requests_witness :
  calls (events (search_pubmed lab "aspirin" []))
  = [RequestsGet (esearch_url "aspirin"); RequestsGet (esummary_url "11,12")]
  /\ calls (events (search_pubmed offline "aspirin" []))
     = [RequestsGet (esearch_url "aspirin")].
Proof.
  split.
  - apply (proj1 (proj2 (search_pubmed_requests lab "aspirin" [])
                    ltac:(discriminate)) ["11"; "12"]).
    exists (ok_response (esearch_url "aspirin") (esearch_url "aspirin")),
      (PyDict [("esearchresult", PyDict [("idlist", PyList [PyStr "11"; PyStr "12"])])]),
      (PyList [PyStr "11"; PyStr "12"]).
    split; [reflexivity | split; [left; reflexivity | repeat split]].
  - apply (proj2 (proj2 (search_pubmed_requests offline "aspirin" [])
                    ltac:(discriminate))).
    intros ids (response & data & idlist & Hg & _). discriminate.
Defined.

Lemma search_falsy_query_witness :
  search unreachable_agent {| request_json := Ret (PyDict [("query", PyInt 0)]) |} []
  = (Ret no_query_response, []).
Proof.
  exact (search_falsy_query unreachable_agent [("query", PyInt 0)] (PyInt 0) []
           eq_refl eq_refl).
Defined.

Lemma search_success_witness :
  search (fun _ => ret "4")
    {| request_json := Ret (PyDict [("query", PyStr "What is 2+2?")]) |} []
  = (Ret {| body := [("result", PyStr "4")]; status := 200 |},
     [Called (AgentRun (PyStr "What is 2+2?"))]).
Proof.
  exact (search_success (fun _ => ret "4") [("query", PyStr "What is 2+2?")]
           (PyStr "What is 2+2?") [] "4" [] eq_refl eq_refl eq_refl).
Defined.

Lemma search_unreadable_witness :
  search unreachable_agent {| request_json := Ret (PyList []) |} []
  = (Ret {| body := [("error", PyStr "'list' object has no attribute 'get'")];
            status := 500 |},
     [Raised (AttributeError "list" "get")]).
Proof.
  apply (proj2 (search_unreadable unreachable_agent
                  {| request_json := Ret (PyList []) |} []) (PyList [])).
  - reflexivity.
  - discriminate.
Defined.

Lemma safe_math_eval_integers_witness :
  safe_math_eval offline " 2*-(3 + 4) - -1" []
  = (Ret "-13", [Called (BuiltinEval " 2*-(3 + 4) - -1")]).
Proof.
  exact (proj2 (proj2 (safe_math_eval_integers offline " 2*-(3 + 4) - -1" (-13) []
                         eq_refl))).
Defined.
